(** * The PyNWB gallery scripts, embedded and verified

    Two tutorial scripts are modelled here:

    - [docs/gallery/general/linking_data.py]: writes two NWB files, then two
      more that link to the data of the first ones;
    - [docs/gallery/general/read_basics.py]: streams one NWB file from the
      DANDI archive, plots a stimulus frame, aligns spike times to stimulus
      onsets and plots landscapes.

    Each script is a monadic program over an explicit world (object heap, file
    system, plotting log) in a state-and-exception monad.  The scripts are
    translated line by line; the PyNWB, h5py, DANDI and matplotlib entry points
    they call are not part of the scripts and are modelled from the
    specification. *)

From Stdlib Require Import ZArith Lia List Bool Ascii Sorted.
From Stdlib Require Import Floats.PrimFloat Floats.SpecFloat Floats.FloatOps Floats.FloatAxioms.
From stdpp Require Import base option list gmap strings pretty.

Open Scope string_scope.
Open Scope list_scope.
Open Scope nat_scope.

(* ===================================================================== *)
(** * NumPy arrays *)
(* ===================================================================== *)

Module Np.

(** An n-dimensional array: its shape and its elements in row-major (C)
    order, as NumPy stores them. *)
Record ndarray (A : Type) : Type := mk_ndarray { shape : list nat; data : list A }.
Arguments mk_ndarray {A} _ _.
Arguments shape {A} _.
Arguments data {A} _.

(** Number of elements of an array of the given shape. *)
Definition size (shp : list nat) : nat := foldr Nat.mul 1 shp.

(** The invariant of every NumPy array: as many elements as the shape says. *)
Definition wf {A} (a : ndarray A) : Prop := length (data a) = size (shape a).

Definition ndim {A} (a : ndarray A) : nat := length (shape a).

(** [np.arange(n)] *)
Definition arange (n : nat) : ndarray Z :=
  mk_ndarray [n] (map Z.of_nat (seq 0 n)).

(** [a.reshape(shp)]: [ValueError] ([None]) when the sizes differ. *)
Definition reshape {A} (a : ndarray A) (shp : list nat) : option (ndarray A) :=
  if Nat.eqb (size shp) (length (data a)) then Some (mk_ndarray shp (data a)) else None.

(** [len(a)] and [a.shape[0]]: the first dimension; a 0-d array has none. *)
Definition len {A} (a : ndarray A) : option nat := head (shape a).

(** [a[i]] for an integer [i >= 0]: the [i]-th slice along the first axis;
    [IndexError] ([None]) out of range or on a 0-d array. *)
Definition getitem {A} (a : ndarray A) (i : nat) : option (ndarray A) :=
  match shape a with
  | [] => None
  | n :: rest =>
      if Nat.ltb i n
      then Some (mk_ndarray rest (take (size rest) (drop (i * size rest) (data a))))
      else None
  end.

(** [a[(idx,)]] with an integer index array [idx], as [np.where] returns it:
    the selected slices along the first axis, stacked. *)
Fixpoint take_rows {A} (a : ndarray A) (idx : list nat) : option (list A) :=
  match idx with
  | [] => Some []
  | i :: idx' =>
      match getitem a i, take_rows a idx' with
      | Some r, Some rs => Some (data r ++ rs)
      | _, _ => None
      end
  end.

Definition getitem_where {A} (a : ndarray A) (idx : list nat) : option (ndarray A) :=
  match shape a with
  | [] => None
  | _ :: rest =>
      match take_rows a idx with
      | Some d => Some (mk_ndarray (length idx :: rest) d)
      | None => None
      end
  end.

(** [np.squeeze(a)]: drops the axes of length one. *)
Definition squeeze {A} (a : ndarray A) : ndarray A :=
  mk_ndarray (List.filter (fun n => negb (Nat.eqb n 1)) (shape a)) (data a).

(** Reversal of consecutive blocks of [n] elements: what reversing the last
    axis does to the row-major element list.  The recursion is on [fuel];
    [length l] is always enough. *)
Fixpoint rev_blocks_aux {A} (fuel n : nat) (l : list A) : list A :=
  match fuel with
  | 0 => []
  | S k =>
      match l with
      | [] => []
      | _ :: _ => rev (take n l) ++ rev_blocks_aux k n (drop n l)
      end
  end.

Definition rev_blocks {A} (n : nat) (l : list A) : list A :=
  rev_blocks_aux (length l) n l.

(** [a[..., ::-1]]: the array with its last axis reversed.  NumPy raises
    [IndexError] on a 0-d array ([None]). *)
Definition rev_last_axis {A} (a : ndarray A) : option (ndarray A) :=
  match last (shape a) with
  | None => None
  | Some n => Some (mk_ndarray (shape a) (rev_blocks n (data a)))
  end.

(** Boolean-mask selection [a[mask]] on one-dimensional arrays. *)
Fixpoint mask_select {A} (a : list A) (mask : list bool) : list A :=
  match a, mask with
  | x :: a', b :: mask' => if b then x :: mask_select a' mask' else mask_select a' mask'
  | _, _ => []
  end.

(** Element-wise [&] of two boolean arrays of the same length. *)
Fixpoint mask_and (m1 m2 : list bool) : list bool :=
  match m1, m2 with
  | b1 :: m1', b2 :: m2' => (b1 && b2) :: mask_and m1' m2'
  | _, _ => []
  end.

End Np.

(* ===================================================================== *)
(** * The script monad: state, exceptions, and the process environment *)
(* ===================================================================== *)

(** What the Python process is started with: the options given to the
    interpreter before the script name ([-O], ...), [sys.argv], and the
    environment.  Neither script imports [sys] or [os]; the accessors below
    exist for the interpreter, not the scripts. *)
Record Env : Type := mk_env {
  python_options : list string;
  argv : list string;
  environ : list (string * string) }.

(** The characters that C's [strtol] skips before a number. *)
Definition is_space (c : Ascii.ascii) : bool :=
  let n := Ascii.nat_of_ascii c in
  Nat.eqb n 32 || (Nat.leb 9 n && Nat.leb n 13).

Fixpoint skip_spaces (s : string) : string :=
  match s with
  | String c s' => if is_space c then skip_spaces s' else s
  | EmptyString => s
  end.

Fixpoint all_zeros (s : string) : bool :=
  match s with
  | String c s' => Ascii.eqb c "0"%char && all_zeros s'
  | EmptyString => true
  end.

(** The strings that CPython reads as the integer zero. *)
Definition is_zero_literal (v : string) : bool :=
  match skip_spaces v with
  | String c s' =>
      if Ascii.eqb c "+"%char || Ascii.eqb c "-"%char
      then match s' with String _ _ => all_zeros s' | EmptyString => false end
      else all_zeros (String c s')
  | EmptyString => false
  end.

(** Whether the interpreter runs optimised, in which case it does not
    execute [assert] statements: under the option [-O] or [-OO], or with
    [PYTHONOPTIMIZE] set to a non-empty string, the integer zero apart. *)
Definition python_optimize (env : Env) : bool :=
  existsb (fun o => String.eqb o "-O" || String.eqb o "-OO") (python_options env) ||
  match List.find (fun kv => String.eqb (fst kv) "PYTHONOPTIMIZE") (environ env) with
  | Some (_, v) => negb (String.eqb v "") && negb (is_zero_literal v)
  | None => false
  end.

(** Exceptions.  [LibraryError cls msg] is raised inside a library call
    ([KeyError], [OSError], ...); [AssertionError] by an [assert] statement. *)
Inductive exn : Type :=
| LibraryError (cls msg : string)
| AssertionError.

Inductive result (W A : Type) : Type :=
| Ok (a : A) (w : W)
| Raise (e : exn) (w : W).
Arguments Ok {W A} _ _.
Arguments Raise {W A} _ _.

Definition M (W A : Type) : Type := Env -> W -> result W A.

(** The world a run ends in, and its value if it completed. *)
Definition final_world {W A} (r : result W A) : W :=
  match r with Ok _ w => w | Raise _ w => w end.

Definition value_of {W A} (r : result W A) : option A :=
  match r with Ok a _ => Some a | Raise _ _ => None end.

Section Monad.
Context {W : Type}.

Definition ret {A} (a : A) : M W A := fun _ w => Ok a w.

Definition bind {A B} (m : M W A) (k : A -> M W B) : M W B :=
  fun env w =>
    match m env w with
    | Ok a w' => k a env w'
    | Raise e w' => Raise e w'
    end.

Definition raise {A} (e : exn) : M W A := fun _ w => Raise e w.

Definition get : M W W := fun _ w => Ok w w.
Definition put (w : W) : M W unit := fun _ _ => Ok tt w.
Definition modify (f : W -> W) : M W unit := fun _ w => Ok tt (f w).

(** [try: m except: h] *)
Definition try_except {A} (m : M W A) (h : exn -> M W A) : M W A :=
  fun env w =>
    match m env w with
    | Ok a w' => Ok a w'
    | Raise e w' => h e env w'
    end.

(** [sys.argv] and [os.environ.get(k)] *)
Definition sys_argv : M W (list string) := fun env w => Ok (argv env) w.
Definition os_environ_get (k : string) : M W (option string) :=
  fun env w => Ok (snd <$> List.find (fun kv => String.eqb (fst kv) k) (environ env)) w.

(** [assert b]: not executed by an optimising interpreter. *)
Definition py_assert (b : bool) : M W unit :=
  fun env w =>
    if python_optimize env || b then Ok tt w else Raise AssertionError w.

(** Lift of a fallible pure computation: [None] is the library's error. *)
Definition lift_option {A} (cls msg : string) (o : option A) : M W A :=
  match o with
  | Some a => ret a
  | None => raise (LibraryError cls msg)
  end.

(** Sequential traversal of a list, collecting the results. *)
Fixpoint map_m {A B} (f : A -> M W B) (xs : list A) : M W (list B) :=
  match xs with
  | [] => ret []
  | x :: xs' => bind (f x) (fun y => bind (map_m f xs') (fun ys => ret (y :: ys)))
  end.

(** [for x in xs: body x] *)
Fixpoint for_each {A} (xs : list A) (body : A -> M W unit) : M W unit :=
  match xs with
  | [] => ret tt
  | x :: xs' => bind (body x) (fun _ => for_each xs' body)
  end.

(** [with enter as x: body x]: the context manager's [__exit__] runs on
    both ways out, and an exception of the body is re-raised after it. *)
Definition with_as {A B} (enter : M W A) (leave : A -> M W unit) (body : A -> M W B) : M W B :=
  bind enter (fun x =>
    fun env w =>
      match body x env w with
      | Ok b w' =>
          match leave x env w' with
          | Ok _ w'' => Ok b w''
          | Raise e w'' => Raise e w''
          end
      | Raise e w' =>
          match leave x env w' with
          | Ok _ w'' => Raise e w''
          | Raise e' w'' => Raise e' w''
          end
      end).

(** ** Properties of scripts *)

(** [m] raises no exception outside [P]. *)
Definition raises_only (P : exn -> Prop) {A} (m : M W A) : Prop :=
  forall env w, match m env w with Raise e _ => P e | Ok _ _ => True end.

(** [m] does the same whatever the process was started with. *)
Definition env_independent {A} (m : M W A) : Prop :=
  forall env1 env2 w, m env1 w = m env2 w.

(** Every run of [m], completed or not, takes a world to one related to it
    by [R]. *)
Definition preserves (R : W -> W -> Prop) {A} (m : M W A) : Prop :=
  forall env w, match m env w with Ok _ w' => R w w' | Raise _ w' => R w w' end.


(** ** Scripts without exception handlers *)

Section Handlers.
(** The calls into the libraries. *)
Variable library_call : forall A, M W A -> Prop.



End Handlers.

End Monad.




Declare Scope script_scope.
Delimit Scope script_scope with script.
Notation "x <- m ;; k" := (bind m (fun x => k))
  (at level 20, m at level 99, k at level 200, only parsing) : script_scope.
Notation "m ;; k" := (bind m (fun _ => k))
  (at level 100, k at level 200, right associativity, only parsing) : script_scope.
Open Scope script_scope.

(** Python dictionaries keep insertion order: association lists, looked up
    by the first matching key. *)
Fixpoint dict_get {V} (k : string) (d : list (string * V)) : option V :=
  match d with
  | [] => None
  | (k', v) :: d' => if String.eqb k' k then Some v else dict_get k d'
  end.

Definition dict_keys {V} (d : list (string * V)) : list string := map fst d.

(* ===================================================================== *)
(** * linking_data.py *)
(* ===================================================================== *)

Module Linking.
Import Np.

(** ** Objects and files *)

(** Object identity: the index of the object in the heap. *)
Definition loc := nat.

(** The categories of child records of a session container. *)
Inductive category : Type := Acquisition | Stimulus.

(** The two arrays of a time series. *)
Inductive field : Type := FData | FTimestamps.

Definition category_eqb (c1 c2 : category) : bool :=
  match c1, c2 with
  | Acquisition, Acquisition | Stimulus, Stimulus => true
  | _, _ => false
  end.

(** [datetime(year, month, day, hour, minute, second)] *)
Record datetime : Type := mk_datetime {
  year : nat; month : nat; day : nat; hour : nat; minute : nat; second : nat }.

(** The keyword arguments of [NWBFile(...)]. *)
Record session_meta : Type := mk_meta {
  source : string;
  session_description : string;
  identifier : string;
  session_start_time : datetime;
  file_create_date : datetime }.

(** Where a record lives inside a container file. *)
Definition h5path : Type := (string * category * string)%type.

(** Modelled from the spec: the in-memory objects of the library (module
    [pynwb], not among the sources): "a session-level container object holding
    named child records (time-series-like objects with a data array and a
    timestamp array), grouped into categories (acquisition, stimulus)".
    Fields that hold another object hold its location, as Python references
    do. *)
Inductive obj : Type :=
| ONdarray (a : ndarray Z)
    (* a NumPy array in memory *)
| ODataset (file : string) (c : category) (name : string) (f : field)
    (* an array inside an open container file, read when indexed *)
| OH5DataIO (data : loc) (link_data : bool)
    (* [H5DataIO(data=..., link_data=...)] *)
| OTimeSeries (name src unit : string) (data timestamps : loc)
| ONWBFile (meta : session_meta) (acquisition stimulus : list (string * loc))
| OBuildManager (by_script : bool) (built : list (loc * h5path))
    (* the records this manager has read or written, and where they live *)
| ONWBHDF5IO (path : string) (mode : option string) (manager : loc) (is_open : bool).

(** Modelled from the spec: the container file format (HDF5 through [h5py],
    not among the sources): "a hierarchical binary file holding named nested
    records and arrays", and "External link: a reference from one container
    file to a record stored in another container file, resolved at read
    time". *)
Inductive h5dataset : Type :=
| H5Array (a : ndarray Z)
| H5ExternalData (file : string) (c : category) (name : string) (f : field).

Inductive h5entry : Type :=
| H5Series (src unit : string) (data timestamps : h5dataset)
| H5ExternalLink (file : string) (c : category) (name : string).

Record h5file : Type := mk_h5file {
  h5_meta : session_meta;
  h5_acquisition : list (string * h5entry);
  h5_stimulus : list (string * h5entry) }.

(** The world a script runs in: the objects it has created, the file system,
    and the failures the environment holds for the coming library calls (one
    entry per call: [Some (cls, msg)] makes that call raise). *)
Record World : Type := mk_world {
  heap : list obj;
  files : gmap string h5file;
  pending : list (option (string * string)) }.

Definition set_heap (h : list obj) (w : World) : World :=
  mk_world h (files w) (pending w).
Definition set_files (fs : gmap string h5file) (w : World) : World :=
  mk_world (heap w) fs (pending w).
Definition set_pending (p : list (option (string * string))) (w : World) : World :=
  mk_world (heap w) (files w) p.

(** A fresh interpreter on an empty directory, where no call fails. *)
Definition fresh_world : World := mk_world [] ∅ [].

Definition group_of (c : category) (h : h5file) : list (string * h5entry) :=
  match c with Acquisition => h5_acquisition h | Stimulus => h5_stimulus h end.

Definition dataset_of (f : field) (d t : h5dataset) : h5dataset :=
  match f with FData => d | FTimestamps => t end.

(** HDF5 gives up after this many link traversals. *)
Definition max_link_depth : nat := 16.

(** Modelled from the spec: link resolution ("resolved at read time").  The
    array found at a path, following external links. *)
Fixpoint resolve_dataset (fuel : nat) (fs : gmap string h5file)
    (file : string) (c : category) (name : string) (f : field) : option (ndarray Z) :=
  match fuel with
  | 0 => None
  | S k =>
      match fs !! file with
      | None => None
      | Some h =>
          match dict_get name (group_of c h) with
          | None => None
          | Some (H5Series _ _ d t) =>
              match dataset_of f d t with
              | H5Array a => Some a
              | H5ExternalData file' c' name' f' => resolve_dataset k fs file' c' name' f'
              end
          | Some (H5ExternalLink file' c' name') => resolve_dataset k fs file' c' name' f
          end
      end
  end.

(** The record an entry stands for, following external links: the file and
    the path where it is stored, and its attributes. *)
Fixpoint resolve_series (fuel : nat) (fs : gmap string h5file)
    (file : string) (c : category) (name : string) : option (h5path * string * string) :=
  match fuel with
  | 0 => None
  | S k =>
      match fs !! file with
      | None => None
      | Some h =>
          match dict_get name (group_of c h) with
          | None => None
          | Some (H5Series src unit _ _) => Some ((file, c, name), src, unit)
          | Some (H5ExternalLink file' c' name') => resolve_series k fs file' c' name'
          end
      end
  end.

(** ** Library entry points *)

(** Every call into a library first meets the environment: it raises the
    failure pending for it, if any. *)
Definition lib_call : M World unit :=
  fun _ w =>
    match pending w with
    | [] => Ok tt w
    | None :: p => Ok tt (set_pending p w)
    | Some (cls, msg) :: p => Raise (LibraryError cls msg) (set_pending p w)
    end.

Definition alloc (o : obj) : M World loc :=
  fun _ w => Ok (length (heap w)) (set_heap (heap w ++ [o]) w).

Definition load (l : loc) : M World obj :=
  fun _ w =>
    match heap w !! l with
    | Some o => Ok o w
    | None => Raise (LibraryError "ReferenceError" "no such object") w
    end.

Definition store (l : loc) (o : obj) : M World unit :=
  fun _ w => Ok tt (set_heap (<[l := o]> (heap w)) w).

Definition type_error {A} (msg : string) : M World A :=
  raise (LibraryError "TypeError" msg).

(** [import m] and [from m import names] *)
Definition py_import (module : string) (names : list string) : M World unit :=
  lib_call.

(** [np.arange(n)] *)
Definition np_arange (n : nat) : M World loc :=
  lib_call ;; alloc (ONdarray (arange n)).

(** [a.reshape(shp)] *)
Definition ndarray_reshape (a : loc) (shp : list nat) : M World loc :=
  lib_call ;;
  o <- load a ;;
  match o with
  | ONdarray arr =>
      arr' <- lift_option "ValueError" "cannot reshape array" (reshape arr shp) ;;
      alloc (ONdarray arr')
  | _ => type_error "reshape"
  end.

(** [a.flat[i] = v]: in-place update of an array.  No script calls it; it is
    what mutating an array means. *)
Definition ndarray_setitem (a : loc) (i : nat) (v : Z) : M World unit :=
  lib_call ;;
  o <- load a ;;
  match o with
  | ONdarray arr =>
      if Nat.ltb i (length (data arr))
      then store a (ONdarray (mk_ndarray (shape arr) (<[i := v]> (data arr))))
      else raise (LibraryError "IndexError" "index out of bounds")
  | _ => type_error "setitem"
  end.

(** Modelled from the spec: [NWBFile(...)] (module [pynwb.file], not among the
    sources) makes a session container with no child records. *)
Definition NWBFile (source session_description identifier : string)
    (session_start_time file_create_date : datetime) : M World loc :=
  lib_call ;;
  alloc (ONWBFile (mk_meta source session_description identifier
                           session_start_time file_create_date) [] []).

(** Modelled from the spec: [TimeSeries(...)] (module [pynwb.base], not among
    the sources) makes a record that holds the two array objects it is given. *)
Definition TimeSeries (name source : string) (data : loc) (unit : string)
    (timestamps : loc) : M World loc :=
  lib_call ;;
  alloc (OTimeSeries name source unit data timestamps).

(** [H5DataIO(data=..., link_data=...)] *)
Definition H5DataIO (data : loc) (link_data : bool) : M World loc :=
  lib_call ;;
  alloc (OH5DataIO data link_data).

(** [get_manager()] *)
Definition get_manager : M World loc :=
  lib_call ;;
  alloc (OBuildManager true []).

(** Modelled from the spec: [nwbfile.add_acquisition(ts)] (module
    [pynwb.file], not among the sources) adds the record, under its name, to
    the acquisition category; a name already there is refused. *)
Definition add_acquisition (nwbfile ts : loc) : M World unit :=
  lib_call ;;
  f <- load nwbfile ;;
  t <- load ts ;;
  match f, t with
  | ONWBFile meta acq stim, OTimeSeries name _ _ _ _ =>
      match dict_get name acq with
      | Some _ => raise (LibraryError "ValueError" "name already in use")
      | None => store nwbfile (ONWBFile meta (acq ++ [(name, ts)]) stim)
      end
  | _, _ => type_error "add_acquisition"
  end.

(** [nwbfile.add_stimulus(ts)], the same for the stimulus category. *)
Definition add_stimulus (nwbfile ts : loc) : M World unit :=
  lib_call ;;
  f <- load nwbfile ;;
  t <- load ts ;;
  match f, t with
  | ONWBFile meta acq stim, OTimeSeries name _ _ _ _ =>
      match dict_get name stim with
      | Some _ => raise (LibraryError "ValueError" "name already in use")
      | None => store nwbfile (ONWBFile meta acq (stim ++ [(name, ts)]))
      end
  | _, _ => type_error "add_stimulus"
  end.

(** Modelled from the spec: [nwbfile.get_acquisition(name)]; [KeyError] when
    no record has the name. *)
Definition get_acquisition (nwbfile : loc) (name : string) : M World loc :=
  lib_call ;;
  f <- load nwbfile ;;
  match f with
  | ONWBFile _ acq _ => lift_option "KeyError" name (dict_get name acq)
  | _ => type_error "get_acquisition"
  end.

(** [nwbfile.get_stimulus(name)] *)
Definition get_stimulus (nwbfile : loc) (name : string) : M World loc :=
  lib_call ;;
  f <- load nwbfile ;;
  match f with
  | ONWBFile _ _ stim => lift_option "KeyError" name (dict_get name stim)
  | _ => type_error "get_stimulus"
  end.

(** The attribute [ts.data] *)
Definition ts_data (ts : loc) : M World loc :=
  t <- load ts ;;
  match t with
  | OTimeSeries _ _ _ d _ => ret d
  | _ => raise (LibraryError "AttributeError" "data")
  end.

(** The attribute [ts.timestamps] *)
Definition ts_timestamps (ts : loc) : M World loc :=
  t <- load ts ;;
  match t with
  | OTimeSeries _ _ _ _ t' => ret t'
  | _ => raise (LibraryError "AttributeError" "timestamps")
  end.

(** The attribute [ts.name] *)
Definition ts_name (ts : loc) : M World string :=
  t <- load ts ;;
  match t with
  | OTimeSeries n _ _ _ _ => ret n
  | _ => raise (LibraryError "AttributeError" "name")
  end.

(** [d[:]] and [np.asarray(d)]: the values of an array object; a dataset is
    read from its file, through the links on the way. *)
Definition array_values (d : loc) : M World (ndarray Z) :=
  o <- load d ;;
  match o with
  | ONdarray a => ret a
  | ODataset file c name f =>
      w <- get ;;
      lift_option "KeyError" "unable to open object"
        (resolve_dataset max_link_depth (files w) file c name f)
  | OH5DataIO d' _ =>
      o' <- load d' ;;
      match o' with
      | ONdarray a => ret a
      | ODataset file c name f =>
          w <- get ;;
          lift_option "KeyError" "unable to open object"
            (resolve_dataset max_link_depth (files w) file c name f)
      | _ => type_error "H5DataIO"
      end
  | _ => type_error "not an array"
  end.


(** ** Reading and writing container files *)

Definition loc_lookup {V} (l : loc) (d : list (loc * V)) : option V :=
  snd <$> List.find (fun kv => Nat.eqb (fst kv) l) d.

Definition h5path_file (p : h5path) : string := fst (fst p).

(** What a manager knows about a record. *)
Definition manager_lookup (mgr ts : loc) : M World (option h5path) :=
  m <- load mgr ;;
  match m with
  | OBuildManager _ built => ret (loc_lookup ts built)
  | _ => type_error "manager"
  end.

Definition manager_register (mgr ts : loc) (p : h5path) : M World unit :=
  m <- load mgr ;;
  match m with
  | OBuildManager by_script built => store mgr (OBuildManager by_script (built ++ [(ts, p)]))
  | _ => type_error "manager"
  end.

(** Modelled from the spec: [NWBHDF5IO(path, mode, manager=...)] (module
    [pynwb], not among the sources) opens a handle on a container file; without
    a manager it makes one of its own. *)
Definition NWBHDF5IO (path : string) (mode : option string) (manager : option loc)
    : M World loc :=
  lib_call ;;
  mgr <- match manager with
         | Some m => ret m
         | None => alloc (OBuildManager false [])
         end ;;
  alloc (ONWBHDF5IO path mode mgr true).

(** Modelled from the spec: [io.close()] *)
Definition io_close (io : loc) : M World unit :=
  lib_call ;;
  o <- load io ;;
  match o with
  | ONWBHDF5IO path mode mgr _ => store io (ONWBHDF5IO path mode mgr false)
  | _ => type_error "close"
  end.

(** An array that is already in a file: linked to, or copied. *)
Definition write_h5dataset (link : bool) (file : string) (c : category) (name : string)
    (f : field) : M World h5dataset :=
  if link then ret (H5ExternalData file c name f)
  else
    w <- get ;;
    a <- lift_option "KeyError" "unable to open object"
           (resolve_dataset max_link_depth (files w) file c name f) ;;
    ret (H5Array a).

(** One array of a record, as it goes into the file: an array in memory is
    stored; a dataset of a file is linked or copied, as its [H5DataIO] wrapper
    says or else as the call says. *)
Definition write_dataset (link : bool) (d : loc) : M World h5dataset :=
  o <- load d ;;
  match o with
  | ONdarray a => ret (H5Array a)
  | ODataset file c name f => write_h5dataset link file c name f
  | OH5DataIO d' link' =>
      o' <- load d' ;;
      match o' with
      | ONdarray a => ret (H5Array a)
      | ODataset file c name f => write_h5dataset link' file c name f
      | _ => type_error "H5DataIO"
      end
  | _ => type_error "not an array"
  end.

(** Modelled from the spec: one child record, as it goes into the file
    [target].  A record that the manager knows to live in another file becomes
    an external link to it ("a reference from one container file to a record
    stored in another container file"); any other is stored, and the manager
    told. *)
Definition write_series (mgr : loc) (target : string) (link : bool) (c : category)
    (entry : string * loc) : M World (string * h5entry) :=
  let '(name, ts) := entry in
  t <- load ts ;;
  match t with
  | OTimeSeries _ src unit d tstamps =>
      known <- manager_lookup mgr ts ;;
      match known with
      | Some (file', c', name') =>
          if negb (String.eqb file' target)
          then ret (name, H5ExternalLink file' c' name')
          else
            d' <- write_dataset link d ;;
            t' <- write_dataset link tstamps ;;
            ret (name, H5Series src unit d' t')
      | None =>
          d' <- write_dataset link d ;;
          t' <- write_dataset link tstamps ;;
          manager_register mgr ts (target, c, name) ;;
          ret (name, H5Series src unit d' t')
      end
  | _ => type_error "not a TimeSeries"
  end.

(** Modelled from the spec: one entry of a file, as it is read: the record it
    stands for (through external links), with its arrays left in the file. *)
Definition read_series (mgr : loc) (file : string) (c : category)
    (entry : string * h5entry) : M World (string * loc) :=
  let '(name, _) := entry in
  w <- get ;;
  r <- lift_option "KeyError" "unable to resolve link"
         (resolve_series max_link_depth (files w) file c name) ;;
  let '((file', c', name'), src, unit) := r in
  d <- alloc (ODataset file' c' name' FData) ;;
  t <- alloc (ODataset file' c' name' FTimestamps) ;;
  ts <- alloc (OTimeSeries name' src unit d t) ;;
  manager_register mgr ts (file', c', name') ;;
  ret (name, ts).

Section Library.
(** What [io.write] does with datasets when [link_data] is not given: a
    constant of the library, which the scripts do not show. *)
Variable default_link_data : bool.

(** Modelled from the spec: [io.write(nwbfile, link_data=...)] (module
    [pynwb], not among the sources) persists the session container as the
    file of the handle, replacing what was there. *)
Definition io_write (io nwbfile : loc) (link_data : option bool) : M World unit :=
  lib_call ;;
  o <- load io ;;
  match o with
  | ONWBHDF5IO path _ mgr true =>
      f <- load nwbfile ;;
      match f with
      | ONWBFile meta acq stim =>
          let link := default default_link_data link_data in
          acq' <- map_m (write_series mgr path link Acquisition) acq ;;
          stim' <- map_m (write_series mgr path link Stimulus) stim ;;
          modify (fun w => set_files (<[path := mk_h5file meta acq' stim']> (files w)) w)
      | _ => type_error "write"
      end
  | ONWBHDF5IO _ _ _ false => raise (LibraryError "ValueError" "I/O operation on closed file")
  | _ => type_error "write"
  end.

(** Modelled from the spec: [io.read()] reopens the file of the handle as a
    session container. *)
Definition io_read (io : loc) : M World loc :=
  lib_call ;;
  o <- load io ;;
  match o with
  | ONWBHDF5IO path _ mgr true =>
      w <- get ;;
      match files w !! path with
      | Some h =>
          acq <- map_m (read_series mgr path Acquisition) (h5_acquisition h) ;;
          stim <- map_m (read_series mgr path Stimulus) (h5_stimulus h) ;;
          alloc (ONWBFile (h5_meta h) acq stim)
      | None => raise (LibraryError "OSError" "unable to open file")
      end
  | ONWBHDF5IO _ _ _ false => raise (LibraryError "ValueError" "I/O operation on closed file")
  | _ => type_error "read"
  end.

(** ** The script *)

(** The names bound by the part "Creating test data". *)
Record TestData : Type := mk_test_data {
  start_time : datetime; create_date : datetime;
  data : loc; timestamps : loc;
  filename1 : string; filename2 : string; filename3 : string; filename4 : string;
  nwbfile1 : loc; test_ts1 : loc; io : loc;
  nwbfile2 : loc; test_ts2 : loc }.

(** The names bound by the part "Linking to select datasets". *)
Record DatasetLinks : Type := mk_dataset_links {
  nwbfile4 : loc;
  dl_io1 : loc; dl_nwbfile1 : loc; dl_timeseries_1 : loc; timeseries_1_data : loc;
  test_ts4 : loc; test_ts5 : loc; io4 : loc }.

(** The names bound by the part "Linking to whole Containers". *)
Record ContainerLinks : Type := mk_container_links {
  manager : loc;
  io1 : loc; cl_nwbfile1 : loc; timeseries_1 : loc;
  io2 : loc; cl_nwbfile2 : loc; timeseries_2 : loc;
  nwbfile3 : loc; io3 : loc }.

(** Lines 58-108, "Creating test data". *)
Definition create_test_data : M World TestData :=
  py_import "datetime" ["datetime"] ;;
  py_import "pynwb" ["NWBFile"] ;;
  py_import "pynwb" ["TimeSeries"] ;;
  py_import "pynwb" ["NWBHDF5IO"] ;;
  py_import "numpy" [] ;;
  (* Create the base data *)
  let start_time := mk_datetime 2017 4 3 11 0 0 in
  let create_date := mk_datetime 2017 4 15 12 0 0 in
  data <- (a <- np_arange 1000 ;; ndarray_reshape a [100; 10]) ;;
  timestamps <- np_arange 100 ;;
  let filename1 := "external1_example.nwb" in
  let filename2 := "external2_example.nwb" in
  let filename3 := "external_linkcontainer_example.nwb" in
  let filename4 := "external_linkdataset_example.nwb" in
  (* Create the first file *)
  nwbfile1 <- NWBFile "PyNWB tutorial" "demonstrate external files" "NWBE1"
                      start_time create_date ;;
  test_ts1 <- TimeSeries "test_timeseries1" "PyNWB tutorial" data "SIunit" timestamps ;;
  add_acquisition nwbfile1 test_ts1 ;;
  (* Write the first file *)
  io <- NWBHDF5IO filename1 (Some "w") None ;;
  io_write io nwbfile1 None ;;
  io_close io ;;
  (* Create the second file *)
  nwbfile2 <- NWBFile "PyNWB tutorial" "demonstrate external files" "NWBE2"
                      start_time create_date ;;
  test_ts2 <- TimeSeries "test_timeseries2" "PyNWB tutorial" data "SIunit" timestamps ;;
  add_acquisition nwbfile2 test_ts2 ;;
  (* Write the second file *)
  io <- NWBHDF5IO filename2 (Some "w") None ;;
  io_write io nwbfile2 None ;;
  io_close io ;;
  ret (mk_test_data start_time create_date data timestamps
                    filename1 filename2 filename3 filename4
                    nwbfile1 test_ts1 io nwbfile2 test_ts2).

(** Lines 111-181, "Linking to select datasets". *)
Definition link_datasets (td : TestData) : M World DatasetLinks :=
  (* Step 1: create the new NWBFile *)
  nwbfile4 <- NWBFile "PyNWB tutorial" "demonstrate external files" "NWBE4"
                      (start_time td) (create_date td) ;;
  (* Step 2: get the dataset you want to link to *)
  io1 <- NWBHDF5IO (filename1 td) None None ;;
  nwbfile1 <- io_read io1 ;;
  timeseries_1 <- get_acquisition nwbfile1 "test_timeseries1" ;;
  timeseries_1_data <- ts_data timeseries_1 ;;
  (* Step 3: create the object you want to link to the data *)
  test_ts4 <- TimeSeries "test_timeseries4" "PyNWB tutorial" timeseries_1_data
                         "SIunit" (timestamps td) ;;
  add_acquisition nwbfile4 test_ts4 ;;
  py_import "pynwb.form.backends.hdf5.h5_utils" ["H5DataIO"] ;;
  (* Create another timeseries that links to the same data *)
  test_ts5 <- (d <- H5DataIO timeseries_1_data true ;;
               TimeSeries "test_timeseries5" "PyNWB tutorial" d "SIunit" (timestamps td)) ;;
  add_acquisition nwbfile4 test_ts5 ;;
  (* Step 4: write the data *)
  py_import "pynwb" ["NWBHDF5IO"] ;;
  io4 <- NWBHDF5IO (filename4 td) (Some "w") None ;;
  io_write io4 nwbfile4 (Some true) ;;
  io_close io4 ;;
  ret (mk_dataset_links nwbfile4 io1 nwbfile1 timeseries_1 timeseries_1_data
                        test_ts4 test_ts5 io4).

(** Lines 193-247, "Linking to whole Containers". *)
Definition link_containers (td : TestData) : M World ContainerLinks :=
  py_import "pynwb" ["get_manager"] ;;
  manager <- get_manager ;;
  (* Step 1: get the container object you want to link to *)
  io1 <- NWBHDF5IO (filename1 td) None (Some manager) ;;
  nwbfile1 <- io_read io1 ;;
  timeseries_1 <- get_acquisition nwbfile1 "test_timeseries1" ;;
  (* Get the second timeseries *)
  io2 <- NWBHDF5IO (filename2 td) None (Some manager) ;;
  nwbfile2 <- io_read io2 ;;
  timeseries_2 <- get_acquisition nwbfile2 "test_timeseries2" ;;
  (* Step 2: add the container to another NWBFile *)
  nwbfile3 <- NWBFile "PyNWB tutorial" "demonstrate external files" "NWBE3"
                      (start_time td) (create_date td) ;;
  add_acquisition nwbfile3 timeseries_1 ;;
  add_acquisition nwbfile3 timeseries_2 ;;
  (* Write our third file that includes our two timeseries as external links *)
  io3 <- NWBHDF5IO (filename3 td) (Some "w") (Some manager) ;;
  io_write io3 nwbfile3 None ;;
  io_close io3 ;;
  ret (mk_container_links manager io1 nwbfile1 timeseries_1 io2 nwbfile2 timeseries_2
                          nwbfile3 io3).

(** [linking_data.py]: the three parts in order; the result is the module
    namespace when the script ends (a later part rebinds [io1], [nwbfile1],
    [nwbfile2] and [timeseries_1]). *)
Definition linking_data : M World (TestData * DatasetLinks * ContainerLinks) :=
  td <- create_test_data ;;
  dl <- link_datasets td ;;
  cl <- link_containers td ;;
  ret (td, dl, cl).

(** Writing a session with one record and reading it back, as lines 75-90
    and 135-137 do, for any record: a new session container, a [TimeSeries]
    on the two arrays added to its acquisition group, [io.write] to [filename],
    then a second handle, [io.read] and [get_acquisition]. *)
Definition write_then_read (meta : session_meta) (name src unit : string)
    (data timestamps : loc) (filename : string) : M World loc :=
  nwbfile <- NWBFile (source meta) (session_description meta) (identifier meta)
                     (session_start_time meta) (file_create_date meta) ;;
  ts <- TimeSeries name src data unit timestamps ;;
  add_acquisition nwbfile ts ;;
  io <- NWBHDF5IO filename (Some "w") None ;;
  io_write io nwbfile None ;;
  io_close io ;;
  io1 <- NWBHDF5IO filename None None ;;
  nwbfile' <- io_read io1 ;;
  get_acquisition nwbfile' name.

End Library.

(** The calls that [linking_data.py] makes into the libraries. *)
Inductive library_call (default_link_data : bool) : forall A, M World A -> Prop :=
| lc_import module names : library_call default_link_data unit (py_import module names)
| lc_np_arange n : library_call default_link_data loc (np_arange n)
| lc_ndarray_reshape a shp : library_call default_link_data loc (ndarray_reshape a shp)
| lc_NWBFile source session_description identifier session_start_time file_create_date :
    library_call default_link_data loc
      (NWBFile source session_description identifier session_start_time file_create_date)
| lc_TimeSeries name source data unit timestamps :
    library_call default_link_data loc (TimeSeries name source data unit timestamps)
| lc_H5DataIO data link_data : library_call default_link_data loc (H5DataIO data link_data)
| lc_get_manager : library_call default_link_data loc get_manager
| lc_add_acquisition nwbfile ts :
    library_call default_link_data unit (add_acquisition nwbfile ts)
| lc_get_acquisition nwbfile name :
    library_call default_link_data loc (get_acquisition nwbfile name)
| lc_ts_data ts : library_call default_link_data loc (ts_data ts)
| lc_NWBHDF5IO path mode manager :
    library_call default_link_data loc (NWBHDF5IO path mode manager)
| lc_io_write io nwbfile link_data :
    library_call default_link_data unit (io_write default_link_data io nwbfile link_data)
| lc_io_read io : library_call default_link_data loc (io_read io)
| lc_io_close io : library_call default_link_data unit (io_close io).

Definition env0 : Env := mk_env [] [] [].

(** ** What the claims speak about *)

(** A fresh session container with one record added to its acquisition
    group. *)
Definition session_with (meta : session_meta) (ts : loc) : M World loc :=
  nwbfile <- NWBFile (source meta) (session_description meta) (identifier meta)
                     (session_start_time meta) (file_create_date meta) ;;
  add_acquisition nwbfile ts ;;
  ret nwbfile.

(** The I/O handles among the objects: location, file, mode, and whether
    still open. *)
Fixpoint io_handles_from (i : nat) (h : list obj)
    : list (loc * string * option string * bool) :=
  match h with
  | [] => []
  | ONWBHDF5IO path mode _ is_open :: h' => (i, path, mode, is_open) :: io_handles_from (S i) h'
  | _ :: h' => io_handles_from (S i) h'
  end.

Definition io_handles (w : World) : list (loc * string * option string * bool) :=
  io_handles_from 0 (heap w).

(** The handles that were opened and never closed. *)
Definition open_handles (w : World) : list (loc * string * option string * bool) :=
  List.filter (fun x => snd x) (io_handles w).

(** The values of an array object in a world, if it can be read. *)
Definition array_of (w : World) (d : loc) : option (ndarray Z) :=
  value_of (array_values d env0 w).

(** The two arrays the script creates on lines 67 and 68. *)
Definition data_array : ndarray Z :=
  mk_ndarray [100; 10] (map Z.of_nat (seq 0 1000)).
Definition timestamps_array : ndarray Z := arange 100.

(** The shapes of the data and of the timestamps of a record. *)
Definition series_shapes (w : World) (ts : loc) : option (list nat * list nat) :=
  match heap w !! ts with
  | Some (OTimeSeries _ _ _ d t) =>
      match array_of w d, array_of w t with
      | Some a, Some b => Some (shape a, shape b)
      | _, _ => None
      end
  | _ => None
  end.

(** All the records among the objects. *)
Fixpoint series_from (i : nat) (h : list obj) : list loc :=
  match h with
  | [] => []
  | OTimeSeries _ _ _ _ _ :: h' => i :: series_from (S i) h'
  | _ :: h' => series_from (S i) h'
  end.

(** Opening a file and reading the data of one of its records. *)
Definition read_data (filename name : string) : M World (ndarray Z) :=
  io <- NWBHDF5IO filename None None ;;
  nwbfile <- io_read io ;;
  ts <- get_acquisition nwbfile name ;;
  d <- ts_data ts ;;
  array_values d.

(** Mutating the data of one record and reading the data of another. *)
Definition mutate_and_observe (ts1 ts2 : loc) (i : nat) (v : Z) : M World (ndarray Z) :=
  d1 <- ts_data ts1 ;;
  ndarray_setitem d1 i v ;;
  d2 <- ts_data ts2 ;;
  array_values d2.

(** [c] is a record or a handle that holds a reference to [o]. *)
Definition holds_ref (w : World) (c o : loc) : Prop :=
  match heap w !! c with
  | Some (OTimeSeries _ _ _ d t) => o = d \/ o = t
  | Some (ONWBHDF5IO _ _ mgr _) => o = mgr
  | _ => False
  end.

(** [o] is a mutable object that the script made: an array, or the manager
    of [get_manager()]. *)
Definition script_created_mutable (w : World) (o : loc) : Prop :=
  match heap w !! o with
  | Some (ONdarray _) => True
  | Some (OBuildManager true _) => True
  | _ => False
  end.

(** Two distinct containers hold the same mutable object of the script. *)
Definition shares_mutable (w : World) (c1 c2 o : loc) : Prop :=
  c1 <> c2 /\ holds_ref w c1 o /\ holds_ref w c2 o /\ script_created_mutable w o.

(** The arrays of [w] are still there, with the same contents, in [w']. *)
Definition arrays_kept (w w' : World) : Prop :=
  forall l a, heap w !! l = Some (ONdarray a) -> heap w' !! l = Some (ONdarray a).

(** ** The run of the script in a fresh interpreter *)

(** The names bound when each part ends: the locations are the order in
    which the objects are made. *)
Definition expected_td : TestData :=
  mk_test_data (mk_datetime 2017 4 3 11 0 0) (mk_datetime 2017 4 15 12 0 0) 1 2
    "external1_example.nwb" "external2_example.nwb"
    "external_linkcontainer_example.nwb" "external_linkdataset_example.nwb"
    3 4 10 7 8.

Definition expected_dl : DatasetLinks := mk_dataset_links 11 13 17 16 14 18 20 22.

Definition expected_cl : ContainerLinks := mk_container_links 23 24 28 27 29 33 32 34 35.

(** The worlds after each part. *)
Definition world1 (dflt : bool) : World :=
  final_world (create_test_data dflt env0 fresh_world).
Definition world2 (dflt : bool) : World :=
  final_world (link_datasets dflt expected_td env0 (world1 dflt)).
Definition world3 (dflt : bool) : World :=
  final_world (link_containers dflt expected_td env0 (world2 dflt)).

(** What the files hold when the script ends: a record stored with its
    arrays, and a record whose data is a link into the first file. *)
Definition stored_series (name : string) : string * h5entry :=
  (name, H5Series "PyNWB tutorial" "SIunit" (H5Array data_array) (H5Array timestamps_array)).

Definition linked_series (name : string) : string * h5entry :=
  (name, H5Series "PyNWB tutorial" "SIunit"
           (H5ExternalData "external1_example.nwb" Acquisition "test_timeseries1" FData)
           (H5Array timestamps_array)).

(** The first element of an array that was read. *)
Definition first_value (r : option (ndarray Z)) : option Z :=
  match r with Some a => head (Np.data a) | None => None end.

(** A small world to run the library in: two arrays and a record on them. *)
Definition sample_meta : session_meta :=
  mk_meta "PyNWB tutorial" "demonstrate external files" "NWBE1"
          (mk_datetime 2017 4 3 11 0 0) (mk_datetime 2017 4 15 12 0 0).

Definition sample_world : World :=
  mk_world [ONdarray (mk_ndarray [2; 3] [0; 1; 2; 3; 4; 5]%Z);
            ONdarray (arange 2);
            OTimeSeries "ts" "PyNWB tutorial" "SIunit" 0 1]
           ∅ [].

(** The fresh interpreter in which the [k]-th library call (from 0) fails
    with the exception [cls(msg)]. *)
Definition fault_world (k : nat) (cls msg : string) : World :=
  mk_world [] ∅ (replicate k None ++ [Some (cls, msg)]).

(** All files but [path] are in [w'] what they are in [w]. *)
Definition files_kept_except (path : string) (w w' : World) : Prop :=
  forall f, f <> path -> files w' !! f = files w !! f.

(** The world with the array stored for a record of a file replaced. *)
Definition overwrite_data (w : World) (file name : string) (a : ndarray Z) : World :=
  match files w !! file with
  | Some h =>
      set_files
        (<[file := mk_h5file (h5_meta h)
                     (map (fun e => match e with
                                    | (n, H5Series src unit _ t) =>
                                        if String.eqb n name then (n, H5Series src unit (H5Array a) t)
                                        else e
                                    | _ => e
                                    end) (h5_acquisition h))
                     (h5_stimulus h)]> (files w)) w
  | None => w
  end.

(** ** The files of the script *)

(** The metadata of the four sessions (lines 75-79, 93-97, 128-132,
    230-234). *)
Definition tutorial_meta (identifier : string) : session_meta :=
  mk_meta "PyNWB tutorial" "demonstrate external files" identifier
          (mk_datetime 2017 4 3 11 0 0) (mk_datetime 2017 4 15 12 0 0).

(** What the four files hold when the script ends. *)
Definition expected_file1 : h5file :=
  mk_h5file (tutorial_meta "NWBE1") [stored_series "test_timeseries1"] [].
Definition expected_file2 : h5file :=
  mk_h5file (tutorial_meta "NWBE2") [stored_series "test_timeseries2"] [].
Definition expected_file4 : h5file :=
  mk_h5file (tutorial_meta "NWBE4")
            [linked_series "test_timeseries4"; linked_series "test_timeseries5"] [].
Definition expected_file3 : h5file :=
  mk_h5file (tutorial_meta "NWBE3")
            [("test_timeseries1",
              H5ExternalLink "external1_example.nwb" Acquisition "test_timeseries1");
             ("test_timeseries2",
              H5ExternalLink "external2_example.nwb" Acquisition "test_timeseries2")] [].

(** The file system when the script ends, over the one it started from. *)
Definition expected_files (fs : gmap string h5file) : gmap string h5file :=
  <[ "external_linkcontainer_example.nwb" := expected_file3 ]>
    (<[ "external_linkdataset_example.nwb" := expected_file4 ]>
       (<[ "external2_example.nwb" := expected_file2 ]>
          (<[ "external1_example.nwb" := expected_file1 ]> fs))).

(** The four files of the script (lines 69-72). *)
Definition tutorial_files : list string :=
  [ "external1_example.nwb"; "external2_example.nwb";
    "external_linkcontainer_example.nwb"; "external_linkdataset_example.nwb" ].

(** Every I/O handle among the objects is on one of the four files. *)
Definition handles_on_tutorial_files (w : World) : Prop :=
  forall l path mode mgr is_open,
    heap w !! l = Some (ONWBHDF5IO path mode mgr is_open) -> In path tutorial_files.

(** All files but the four are in [w'] what they are in [w]. *)
Definition other_files_kept (w w' : World) : Prop :=
  forall f, ~ In f tutorial_files -> files w' !! f = files w !! f.


End Linking.

(* ===================================================================== *)
(** * read_basics.py *)
(* ===================================================================== *)

Module ReadBasics.
Import Np.

(** ** The streamed file and the world *)

(** An [OpticalSeries]: the frames shown and when. *)
Record optical_series : Type := mk_optical_series {
  os_data : ndarray Z;
  os_timestamps : list float }.

(** A row of the trials table (the columns the script reads). *)
Record trial : Type := mk_trial {
  stim_on_time : float;
  category_name : string }.

(** Modelled from the spec: what the streamed NWB file holds (the library's
    data model, not among the sources): named stimulus records, and "a tabular
    trials/units structure". *)
Record nwb_content : Type := mk_content {
  c_stimulus : list (string * optical_series);
  c_units_spike_times : list (list float);
  c_trials : list trial }.

(** What the plotting library is asked to draw, in order. *)
Inductive plot_cmd : Type :=
| Imshow (image : ndarray Z) (aspect : string)
| Subplots (nrows ncols : nat) (sharex : string)
| Xlabel (label : string)
| Eventplot (ax : nat) (positions : list (list float))
| SetYlabel (ax : nat) (label : string)
| SetTitle (ax : nat) (title : string)
| Axvline (ax : nat) (x : Z) (color : list float)
| Hist (ax : nat) (x : list float) (bins : nat)
| Figure.

(** The world: the DANDI archive (assets by dandiset, version and path), the
    object store behind the content URLs, the I/O handles opened so far (file
    and whether still open), the plotting log, and the failures pending for the
    coming library calls. *)
Record World : Type := mk_world {
  archive : list (string * string * string * string);
  remote : gmap string nwb_content;
  handles : list (string * bool);
  figures : list plot_cmd;
  pending : list (option (string * string)) }.

Definition set_handles (h : list (string * bool)) (w : World) : World :=
  mk_world (archive w) (remote w) h (figures w) (pending w).
Definition set_figures (f : list plot_cmd) (w : World) : World :=
  mk_world (archive w) (remote w) (handles w) f (pending w).
Definition set_pending (p : list (option (string * string))) (w : World) : World :=
  mk_world (archive w) (remote w) (handles w) (figures w) p.

(** ** Library entry points *)

Definition lib_call : M World unit :=
  fun _ w =>
    match pending w with
    | [] => Ok tt w
    | None :: p => Ok tt (set_pending p w)
    | Some (cls, msg) :: p => Raise (LibraryError cls msg) (set_pending p w)
    end.

Definition py_import (module : string) (names : list string) : M World unit :=
  lib_call.

(** [DandiAPIClient()], its [__exit__], and the three calls on it. *)
Definition DandiAPIClient : M World unit := lib_call.
Definition client_exit (client : unit) : M World unit := lib_call.

Definition get_dandiset (client : unit) (dandiset_id version : string)
    : M World (string * string) :=
  lib_call ;;
  w <- get ;;
  if existsb (fun a => match a with (d, v, _, _) => String.eqb d dandiset_id && String.eqb v version end)
             (archive w)
  then ret (dandiset_id, version)
  else raise (LibraryError "NotFoundError" dandiset_id).

Definition get_asset_by_path (dandiset : string * string) (path : string)
    : M World (string * string * string * string) :=
  lib_call ;;
  w <- get ;;
  lift_option "NotFoundError" path
    (List.find (fun a => match a with (d, v, p, _) =>
                  String.eqb d (fst dandiset) && String.eqb v (snd dandiset) && String.eqb p path end)
               (archive w)).

Definition get_content_url (asset : string * string * string * string)
    (follow_redirects : nat) (strip_query : bool) : M World string :=
  lib_call ;;
  ret (snd asset).

(** [NWBHDF5IO(path, mode=..., driver=...)]: the handle is its index in the
    table. *)
Definition NWBHDF5IO (path mode driver : string) : M World nat :=
  lib_call ;;
  w <- get ;;
  put (set_handles (handles w ++ [(path, true)]) w) ;;
  ret (length (handles w)).

(** [io.close()].  The script never calls it. *)
Definition io_close (io : nat) : M World unit :=
  lib_call ;;
  w <- get ;;
  match handles w !! io with
  | Some (path, _) => put (set_handles (<[io := (path, false)]> (handles w)) w)
  | None => raise (LibraryError "ReferenceError" "no such handle")
  end.

(** A session container read through a handle: its arrays stay in the file
    and are read through the handle when indexed. *)
Record nwbfile_t : Type := mk_nwbfile { nf_io : nat; nf_content : nwb_content }.

(** [io.read()] *)
Definition io_read (io : nat) : M World nwbfile_t :=
  lib_call ;;
  w <- get ;;
  match handles w !! io with
  | Some (path, true) =>
      c <- lift_option "OSError" "unable to open file" (remote w !! path) ;;
      ret (mk_nwbfile io c)
  | Some (_, false) => raise (LibraryError "ValueError" "I/O operation on closed file")
  | None => raise (LibraryError "ReferenceError" "no such handle")
  end.

(** Indexing a dataset of the file: a library call that needs the handle
    open. *)
Definition dataset_access {A} (f : nwbfile_t) (cls msg : string) (v : option A) : M World A :=
  lib_call ;;
  w <- get ;;
  match handles w !! nf_io f with
  | Some (_, true) => lift_option cls msg v
  | _ => raise (LibraryError "ValueError" "Invalid dataset identifier")
  end.

(** [nwbfile.stimulus[name]] *)
Definition stimulus_getitem (f : nwbfile_t) (name : string) : M World optical_series :=
  lift_option "KeyError" name (dict_get name (c_stimulus (nf_content f))).

(** The plotting calls: each is logged. *)
Definition plot (c : plot_cmd) : M World unit :=
  lib_call ;;
  modify (fun w => set_figures (figures w ++ [c]) w).

(** [np.hstack(arrays)]: [ValueError] on an empty sequence. *)
Definition np_hstack (arrays : list (list float)) : option (list float) :=
  match arrays with
  | [] => None
  | _ => Some (concat arrays)
  end.

(** [a == b] of an array and a table column: element-wise, [ValueError] when
    the lengths differ. *)
Definition column_eq (a b : list float) : option (list bool) :=
  if Nat.eqb (length a) (length b)
  then Some (zip_with PrimFloat.eqb a b)
  else None.

(** [np.all(mask)] *)
Definition np_all (mask : list bool) : bool := forallb id mask.

(** [np.where(a == x)] on a one-dimensional array: the indices that match. *)
Fixpoint np_where_eq (a : list float) (x : float) (i : nat) : list nat :=
  match a with
  | [] => []
  | y :: a' => if PrimFloat.eqb y x then i :: np_where_eq a' x (S i) else np_where_eq a' x (S i)
  end.

(** The calls that [read_basics.py] makes into the libraries: the entry
    points above, a call that only computes in the library
    ([units.to_dataframe()], the call of [np.hstack], ...), and an array
    operation that can fail. *)
Inductive library_call : forall A, M World A -> Prop :=
| lc_import module names : library_call unit (py_import module names)
| lc_DandiAPIClient : library_call unit DandiAPIClient
| lc_client_exit client : library_call unit (client_exit client)
| lc_get_dandiset client dandiset_id version :
    library_call (string * string) (get_dandiset client dandiset_id version)
| lc_get_asset_by_path dandiset path :
    library_call (string * string * string * string) (get_asset_by_path dandiset path)
| lc_get_content_url asset follow_redirects strip_query :
    library_call string (get_content_url asset follow_redirects strip_query)
| lc_NWBHDF5IO path mode driver : library_call nat (NWBHDF5IO path mode driver)
| lc_io_read io : library_call nwbfile_t (io_read io)
| lc_stimulus_getitem f name : library_call optical_series (stimulus_getitem f name)
| lc_dataset_access A f cls msg (v : option A) :
    library_call A (dataset_access f cls msg v)
| lc_plot c : library_call unit (plot c)
| lc_call : library_call unit lib_call
| lc_array_op A cls msg (o : option A) : library_call A (lift_option cls msg o).

(** ** The script *)

(** [color=[0.5, 0.5, 0.5]] *)
Definition grey : list float := [0.5%float; 0.5%float; 0.5%float].

Definition before : float := 1.0%float.  (* in seconds *)
Definition after : float := 3.0%float.

(** The body of the inner loop: spike times relative to the stimulus onset,
    kept when inside the window around it. *)
Definition aligned_spikes (unit_spike_times : list float) (time : float) : list float :=
  (* aligned_spikes = unit_spike_times - time *)
  let aligned_spikes := map (fun s => PrimFloat.sub s time) unit_spike_times in
  (* aligned_spikes[(-before < aligned_spikes) & (aligned_spikes < after)] *)
  mask_select aligned_spikes
    (mask_and (map (fun a => PrimFloat.ltb (PrimFloat.opp before) a) aligned_spikes)
              (map (fun a => PrimFloat.ltb a after) aligned_spikes)).

(** The inner loop: [trial_spikes = []], then one [append] per onset. *)
Definition trial_spikes_loop (unit_spike_times : list float) (stim_on_times : list float)
    : list (list float) :=
  fold_left (fun trial_spikes time => trial_spikes ++ [aligned_spikes unit_spike_times time])
            stim_on_times [].

(** [read_basics.py], statement by statement. *)
Definition read_basics : M World unit :=
  py_import "numpy" [] ;;
  py_import "pynwb" ["NWBHDF5IO"] ;;
  py_import "matplotlib.pyplot" [] ;;
  py_import "dandi.dandiapi" ["DandiAPIClient"] ;;
  let dandiset_id := "000004" in
  let filepath := "sub-P11HMH/sub-P11HMH_ses-20061101_ecephys+image.nwb" in
  s3_path <- with_as DandiAPIClient client_exit (fun client =>
    asset <- (d <- get_dandiset client dandiset_id "draft" ;; get_asset_by_path d filepath) ;;
    get_content_url asset 1 true) ;;
  (* Open the file in read mode "r", and specify the driver as "ros3" *)
  io <- NWBHDF5IO s3_path "r" "ros3" ;;
  nwbfile <- io_read io ;;
  (* nwbfile.stimulus *)
  let _ := c_stimulus (nf_content nwbfile) in
  (* nwbfile.stimulus["StimulusPresentation"] *)
  stimulus_getitem nwbfile "StimulusPresentation" ;;
  stimulus_presentation <- stimulus_getitem nwbfile "StimulusPresentation" ;;
  all_stimulus_data <- dataset_access nwbfile "KeyError" "data"
                         (Some (os_data stimulus_presentation)) ;;
  (* stimulus_presentation.data.shape *)
  let _ := shape (os_data stimulus_presentation) in
  let frame_index := 31 in
  image <- dataset_access nwbfile "IndexError" "index out of range"
             (getitem (os_data stimulus_presentation) frame_index) ;;
  (* Reverse the last dimension because the data were stored in BGR instead of RGB *)
  image <- lift_option "IndexError" "too many indices for array" (rev_last_axis image) ;;
  plot (Imshow image "auto") ;;
  let units := c_units_spike_times (nf_content nwbfile) in
  (* units_df = units.to_dataframe(); units_df *)
  lib_call ;;
  (* units["spike_times"][0] *)
  dataset_access nwbfile "IndexError" "index out of range" (units !! 0) ;;
  (* Get the stimulus times for all stimuli *)
  stim_on_times <- dataset_access nwbfile "KeyError" "timestamps"
                     (Some (os_timestamps stimulus_presentation)) ;;
  for_each (seq 0 3) (fun unit =>
    unit_spike_times <- dataset_access nwbfile "IndexError" "index out of range"
                          (units !! unit) ;;
    let trial_spikes := trial_spikes_loop unit_spike_times stim_on_times in
    plot (Subplots 2 1 "all") ;;
    plot (Xlabel "time (s)") ;;
    plot (Eventplot 0 trial_spikes) ;;
    plot (SetYlabel 0 "trial") ;;
    plot (SetTitle 0 ("unit " +:+ pretty unit)) ;;
    plot (Axvline 0 0 grey) ;;
    stacked <- (lib_call ;; lift_option "ValueError" "need at least one array to concatenate"
                              (np_hstack trial_spikes)) ;;
    plot (Hist 1 stacked 30) ;;
    plot (Axvline 1 0 grey)) ;;
  (* trials_df = nwbfile.trials.to_dataframe(); trials_df *)
  trials_df <- (lib_call ;; ret (c_trials (nf_content nwbfile))) ;;
  same <- (ts <- dataset_access nwbfile "KeyError" "timestamps"
                   (Some (os_timestamps stimulus_presentation)) ;;
           eq <- lift_option "ValueError" "Lengths must match to compare"
                   (column_eq ts (map stim_on_time trials_df)) ;;
           ret (np_all eq)) ;;
  py_assert same ;;
  let stim_on_times_landscapes :=
    map stim_on_time
        (List.filter (fun r => String.eqb (category_name r) "landscapes") trials_df) in
  for_each (take 3 stim_on_times_landscapes) (fun time =>
    img <- (ts <- dataset_access nwbfile "KeyError" "timestamps"
                    (Some (os_timestamps stimulus_presentation)) ;;
            sel <- dataset_access nwbfile "IndexError" "index out of range"
                     (getitem_where (os_data stimulus_presentation) (np_where_eq ts time 0)) ;;
            ret (squeeze sel)) ;;
    (* Reverse the last dimension because the data were stored in BGR instead of RGB *)
    img <- lift_option "IndexError" "too many indices for array" (rev_last_axis img) ;;
    plot Figure ;;
    plot (Imshow img "auto")).

Definition env0 : Env := mk_env [] [] [].

(** ** Sample worlds *)

(** [n] values from [start] in steps of [step]. *)
Fixpoint ramp (n : nat) (start step : float) : list float :=
  match n with
  | 0 => []
  | S k => start :: ramp k (PrimFloat.add start step) step
  end.

Definition sample_url : string := "https://dandiarchive.s3.amazonaws.com/blobs/sample".

Definition sample_archive : list (string * string * string * string) :=
  [("000004", "draft", "sub-P11HMH/sub-P11HMH_ses-20061101_ecephys+image.nwb", sample_url)].

(** 32 frames of 1 x 2 pixels with 3 channels, shown every 10 seconds. *)
Definition sample_stimulus : optical_series :=
  mk_optical_series
    (mk_ndarray [32; 1; 2; 3] (map (fun i => Z.of_nat (i mod 256)) (seq 0 192)))
    (ramp 32 100.0%float 10.0%float).

Definition sample_units : list (list float) :=
  [ramp 40 99.5%float 7.5%float; ramp 25 101.0%float 12.0%float; ramp 10 90.0%float 31.0%float].

Definition sample_trials (shift : float) : list trial :=
  imap (fun i t => mk_trial (PrimFloat.add t shift)
                            (if Nat.even i then "landscapes" else "houses"))
       (os_timestamps sample_stimulus).

Definition sample_world_with (trials : list trial) : World :=
  mk_world sample_archive
           {[ sample_url := mk_content [("StimulusPresentation", sample_stimulus)]
                                       sample_units trials ]}
           [] [] [].

(** A file whose trials table matches its stimulus times. *)
Definition sample_world : World := sample_world_with (sample_trials 0.0%float).


(** The sample world in which the [k]-th library call (from 0) fails with the
    exception [cls(msg)]. *)
Definition fault_world (k : nat) (cls msg : string) : World :=
  set_pending (replicate k None ++ [Some (cls, msg)]) sample_world.

(** ** What the script asks of the archive and of the file, and what it draws *)

(** The asset the script asks the archive for (lines 99-105): the content
    URL of the first asset of the draft of dandiset 000004 with the path. *)
Definition tutorial_asset (archive : list (string * string * string * string))
    : option string :=
  snd <$> List.find
    (fun a => match a with (d, v, p, _) =>
       String.eqb d "000004" && String.eqb v "draft" &&
       String.eqb p "sub-P11HMH/sub-P11HMH_ses-20061101_ecephys+image.nwb" end)
    archive.

(** What the calls of one figure of the loop over the units draw (lines
    265-274). *)
Definition raster_plots (unit : nat) (trial_spikes : list (list float)) : list plot_cmd :=
  [ Subplots 2 1 "all"; Xlabel "time (s)"; Eventplot 0 trial_spikes; SetYlabel 0 "trial";
    SetTitle 0 ("unit " +:+ pretty unit); Axvline 0 0 grey;
    Hist 1 (concat trial_spikes) 30; Axvline 1 0 grey ].

(** The image of one pass of the loop over the landscape onsets (lines
    311-317). *)
Definition landscape_image (data : ndarray Z) (timestamps : list float) (time : float)
    : option (ndarray Z) :=
  sel ← getitem_where data (np_where_eq timestamps time 0);
  rev_last_axis (squeeze sel).

(** The onsets the last loop runs over (lines 307-310). *)
Definition landscape_onsets (trials : list trial) : list float :=
  take 3 (map stim_on_time
              (List.filter (fun r => String.eqb (category_name r) "landscapes") trials)).



End ReadBasics.

(* ===================================================================== *)
(** * Facts about the array operations *)
(* ===================================================================== *)

Module NpFacts.
Import Np.

Section Blocks.
Context {A : Type}.
Implicit Types l : list A.

Lemma rev_blocks_aux_nil fuel n : rev_blocks_aux fuel n (@nil A) = [].
Proof. destruct fuel; reflexivity. Qed.

Lemma rev_blocks_aux_step k n l :
  l <> [] -> rev_blocks_aux (S k) n l = rev (take n l) ++ rev_blocks_aux k n (drop n l).
Proof. destruct l; [congruence | reflexivity]. Qed.

Lemma rev_blocks_aux_length fuel : forall n l,
  0 < n -> length l <= fuel -> length (rev_blocks_aux fuel n l) = length l.
Proof.
  induction fuel as [|k IH]; intros n l Hn Hl.
  - destruct l; simpl in *; [reflexivity | lia].
  - destruct l as [|x l']; [reflexivity|].
    cbn [rev_blocks_aux].
    rewrite length_app, length_rev, IH; [| assumption |].
    + rewrite <- length_app, take_drop. reflexivity.
    + rewrite length_drop. simpl in *. lia.
Qed.

(** Reversing the blocks twice gives the list back. *)
Lemma rev_blocks_aux_involutive fuel : forall n l,
  0 < n -> length l <= fuel ->
  rev_blocks_aux fuel n (rev_blocks_aux fuel n l) = l.
Proof.
  induction fuel as [|k IH]; intros n l Hn Hl.
  - destruct l; simpl in *; [reflexivity | lia].
  - destruct l as [|x l']; [reflexivity|].
    remember (x :: l') as l eqn:El.
    assert (Hne : l <> []) by (subst; discriminate).
    assert (Hk : length (drop n l) <= k).
    { rewrite length_drop. subst l. simpl in *. lia. }
    rewrite (rev_blocks_aux_step k n l Hne).
    set (r := rev_blocks_aux k n (drop n l)).
    assert (Hr : length r = length (drop n l)) by (apply rev_blocks_aux_length; assumption).
    rewrite rev_blocks_aux_step.
    2:{ intros Ey. apply (f_equal length) in Ey.
        rewrite length_app, length_rev, length_take in Ey.
        subst l. simpl in Ey. lia. }
    destruct (Nat.le_gt_cases n (length l)) as [Hge|Hlt].
    + assert (Ht : length (rev (take n l)) = n).
      { rewrite length_rev, length_take. lia. }
      rewrite take_app_length' by (symmetry; exact Ht).
      rewrite drop_app_length' by (symmetry; exact Ht).
      rewrite rev_involutive. subst r. rewrite IH by assumption.
      apply take_drop.
    + assert (Hd : drop n l = []) by (apply drop_ge; lia).
      subst r. rewrite Hd, rev_blocks_aux_nil, app_nil_r.
      rewrite (take_ge l n) by lia.
      rewrite (take_ge (rev l) n) by (rewrite length_rev; lia).
      rewrite (drop_ge (rev l) n) by (rewrite length_rev; lia).
      rewrite rev_blocks_aux_nil, app_nil_r. apply rev_involutive.
Qed.

Lemma rev_blocks_length n l : 0 < n -> length (rev_blocks n l) = length l.
Proof. intros Hn. apply rev_blocks_aux_length; [assumption | reflexivity]. Qed.

Lemma rev_blocks_involutive n l : 0 < n -> rev_blocks n (rev_blocks n l) = l.
Proof.
  intros Hn. unfold rev_blocks at 1. rewrite rev_blocks_length by assumption.
  apply rev_blocks_aux_involutive; [assumption | reflexivity].
Qed.

End Blocks.

(** An array with an axis of length zero has no element. *)
Lemma size_last_zero (shp : list nat) : last shp = Some 0 -> size shp = 0.
Proof.
  induction shp as [|n shp IH]; [discriminate|].
  destruct shp as [|m shp'].
  - simpl. intros [= ->]. reflexivity.
  - intros H. change (size (n :: m :: shp')) with (n * size (m :: shp')).
    rewrite IH; [lia | exact H].
Qed.

Lemma last_is_Some {B} (l : list B) : l <> [] -> exists x, last l = Some x.
Proof.
  intros H. destruct (last l) as [x|] eqn:E; [eauto|].
  apply last_None in E. contradiction.
Qed.

(** C10. The reversal of the last axis, [a[..., ::-1]], which the script
    applies to stimulus images to turn BGR into RGB, keeps the shape of the
    array, and applied twice gives back an array equal to the original.  This
    holds for every array that has a last axis (NumPy refuses the index on a
    0-d array). *)
Theorem rev_last_axis_involutive {A} (a : ndarray A) :
  wf a -> 0 < ndim a ->
  exists b, rev_last_axis a = Some b /\ shape b = shape a /\ wf b /\
            rev_last_axis b = Some a.
Proof.
  intros Hwf Hdim.
  destruct a as [shp d]. unfold wf, ndim, rev_last_axis in *. simpl in *.
  destruct (last_is_Some shp) as [n Hn].
  { destruct shp; [simpl in Hdim; lia | discriminate]. }
  rewrite Hn. eexists. split; [reflexivity|]. simpl. rewrite Hn.
  destruct n as [|n].
  - assert (d = []) as ->.
    { apply size_last_zero in Hn. rewrite Hn in Hwf. destruct d; [reflexivity | discriminate]. }
    repeat split; assumption.
  - rewrite rev_blocks_length, rev_blocks_involutive by lia.
    repeat split; assumption.
Qed.

(** A 2 x 3 array: each row is reversed, and reversed back. *)
Lemma rev_last_axis_involutive_witness :
  exists b, rev_last_axis (mk_ndarray [2; 3] [1; 2; 3; 4; 5; 6]%Z) = Some b /\
            shape b = [2; 3] /\ wf b /\
            rev_last_axis b = Some (mk_ndarray [2; 3] [1; 2; 3; 4; 5; 6]%Z).
Proof.
  apply (rev_last_axis_involutive (mk_ndarray [2; 3] [1; 2; 3; 4; 5; 6]%Z)).
  - reflexivity.
  - unfold ndim. simpl. lia.
Defined.

Example rev_last_axis_rows :
  rev_last_axis (mk_ndarray [2; 3] [1; 2; 3; 4; 5; 6]%Z)
  = Some (mk_ndarray [2; 3] [3; 2; 1; 6; 5; 4]%Z).
Proof. reflexivity. Qed.

Example rev_last_axis_scalar : rev_last_axis (mk_ndarray [] [7%Z]) = None.
Proof. reflexivity. Qed.

(** Selection by a mask keeps elements of the array. *)
Lemma mask_select_In {A} (a : list A) : forall mask x,
  In x (mask_select a mask) -> In x a.
Proof.
  induction a as [|y a IH]; intros [|b mask] x H; simpl in *; try contradiction.
  destruct b; simpl in H; [destruct H as [->|H]|]; eauto.
Qed.

(** Selection by the mask of two tests keeps only elements that pass both. *)
Lemma mask_select_tests {A} (p q : A -> bool) (a : list A) x :
  In x (mask_select a (mask_and (map p a) (map q a))) ->
  p x = true /\ q x = true.
Proof.
  induction a as [|y a IH]; simpl; [contradiction|].
  destruct (p y) eqn:Ep, (q y) eqn:Eq; simpl; intros H;
    try (apply IH; exact H).
  destruct H as [<-|H]; [split; assumption | apply IH; exact H].
Qed.

(** And it is the filter by both tests. *)
Lemma mask_select_filter {A} (p q : A -> bool) (a : list A) :
  mask_select a (mask_and (map p a) (map q a)) = List.filter (fun x => p x && q x) a.
Proof.
  induction a as [|y a IH]; simpl; [reflexivity|].
  destruct (p y), (q y); simpl; rewrite IH; reflexivity.
Qed.

End NpFacts.

(* ===================================================================== *)
(** * Facts about the script monad *)
(* ===================================================================== *)

Section MonadFacts.
Context {W : Type}.

(** ** Which exceptions a script raises *)

Section RaisesOnly.
Variable P : exn -> Prop.

Lemma ro_ret {A} (a : A) : raises_only (W:=W) P (ret a).
Proof. intros env w. exact I. Qed.

Lemma ro_raise {A} e : P e -> raises_only (W:=W) P (@raise W A e).
Proof. intros H env w. exact H. Qed.

Lemma ro_bind {A B} (m : M W A) (k : A -> M W B) :
  raises_only P m -> (forall a, raises_only P (k a)) -> raises_only P (bind m k).
Proof.
  intros Hm Hk env w. unfold bind. specialize (Hm env w).
  destruct (m env w) as [a w'|e w']; [apply Hk | exact Hm].
Qed.

Lemma ro_get : raises_only (W:=W) P get.
Proof. intros env w. exact I. Qed.

Lemma ro_put w0 : raises_only (W:=W) P (put w0).
Proof. intros env w. exact I. Qed.

Lemma ro_modify f : raises_only (W:=W) P (modify f).
Proof. intros env w. exact I. Qed.

Lemma ro_lift_option {A} cls msg (o : option A) :
  P (LibraryError cls msg) -> raises_only (W:=W) P (lift_option cls msg o).
Proof. intros H. destruct o; [apply ro_ret | apply ro_raise, H]. Qed.


Lemma ro_map_m {A B} (f : A -> M W B) xs :
  (forall x, raises_only P (f x)) -> raises_only P (map_m f xs).
Proof.
  intros Hf. induction xs as [|x xs IH]; [apply ro_ret|].
  simpl. apply ro_bind; [apply Hf|]. intros y.
  apply ro_bind; [exact IH|]. intros ys. apply ro_ret.
Qed.

Lemma ro_for_each {A} (body : A -> M W unit) xs :
  (forall x, raises_only P (body x)) -> raises_only P (for_each xs body).
Proof.
  intros Hf. induction xs as [|x xs IH]; [apply ro_ret|].
  simpl. apply ro_bind; [apply Hf | intros _; exact IH].
Qed.

Lemma ro_with_as {A B} (enter : M W A) leave (body : A -> M W B) :
  raises_only P enter -> (forall x, raises_only P (leave x)) ->
  (forall x, raises_only P (body x)) -> raises_only P (with_as enter leave body).
Proof.
  intros He Hl Hb. unfold with_as. apply ro_bind; [exact He|].
  intros x env w. specialize (Hb x env w).
  destruct (body x env w) as [b w'|e w'].
  - specialize (Hl x env w'). destruct (leave x env w'); [exact I | exact Hl].
  - specialize (Hl x env w'). destruct (leave x env w'); [exact Hb | exact Hl].
Qed.

End RaisesOnly.

Lemma ro_weaken (P Q : exn -> Prop) {A} (m : M W A) :
  (forall e, P e -> Q e) -> raises_only P m -> raises_only Q m.
Proof.
  intros HPQ Hm env w. specialize (Hm env w).
  destruct (m env w); [exact I | apply HPQ, Hm].
Qed.

(** ** Independence of the process environment *)









(** The accessors of the environment are what the property excludes. *)
Lemma sys_argv_depends : ~ env_independent (W:=unit) sys_argv.
Proof.
  intros H. specialize (H (mk_env [] [] []) (mk_env [] ["x"] []) tt). discriminate H.
Qed.

(** ** What a script leaves unchanged *)

Section Preserves.
Variable R : W -> W -> Prop.
Hypothesis R_refl : forall w, R w w.
Hypothesis R_trans : forall w1 w2 w3, R w1 w2 -> R w2 w3 -> R w1 w3.

Lemma pr_ret {A} (a : A) : preserves R (ret a).
Proof. intros env w. apply R_refl. Qed.

Lemma pr_raise {A} e : preserves R (@raise W A e).
Proof. intros env w. apply R_refl. Qed.

Lemma pr_get : preserves R get.
Proof. intros env w. apply R_refl. Qed.

Lemma pr_bind {A B} (m : M W A) (k : A -> M W B) :
  preserves R m -> (forall a, preserves R (k a)) -> preserves R (bind m k).
Proof.
  intros Hm Hk env w. unfold bind. specialize (Hm env w).
  destruct (m env w) as [a w'|e w']; [|exact Hm].
  specialize (Hk a env w'). destruct (k a env w'); eapply R_trans; eassumption.
Qed.

Lemma pr_lift_option {A} cls msg (o : option A) : preserves R (lift_option cls msg o).
Proof. destruct o; [apply pr_ret | apply pr_raise]. Qed.

Lemma pr_py_assert b : preserves R (py_assert b).
Proof.
  intros env w. unfold py_assert.
  destruct (python_optimize env || b); apply R_refl.
Qed.

Lemma pr_map_m {A B} (f : A -> M W B) xs :
  (forall x, preserves R (f x)) -> preserves R (map_m f xs).
Proof.
  intros Hf. induction xs as [|x xs IH]; [apply pr_ret|].
  simpl. apply pr_bind; [apply Hf|]. intros y.
  apply pr_bind; [exact IH|]. intros ys. apply pr_ret.
Qed.

Lemma pr_for_each {A} (body : A -> M W unit) xs :
  (forall x, preserves R (body x)) -> preserves R (for_each xs body).
Proof.
  intros Hf. induction xs as [|x xs IH]; [apply pr_ret|].
  simpl. apply pr_bind; [apply Hf | intros _; exact IH].
Qed.

Lemma pr_with_as {A B} (enter : M W A) leave (body : A -> M W B) :
  preserves R enter -> (forall x, preserves R (leave x)) ->
  (forall x, preserves R (body x)) -> preserves R (with_as enter leave body).
Proof.
  intros He Hl Hb. unfold with_as. apply pr_bind; [exact He|].
  intros x env w. specialize (Hb x env w).
  destruct (body x env w) as [b w'|e w'];
    specialize (Hl x env w'); destruct (leave x env w'); eapply R_trans; eassumption.
Qed.

Lemma pr_modify f : (forall w, R w (f w)) -> preserves R (modify f).
Proof. intros H env w. apply H. Qed.

Lemma pr_put_get (f : W -> W) :
  (forall w, R w (f w)) -> preserves R (bind get (fun w => put (f w))).
Proof. intros H env w. apply H. Qed.

End Preserves.

(** ** Dependence on the optimisation setting alone *)







(** An [assert] depends on the setting: an optimising interpreter goes past
    a condition that is false. *)
Lemma py_assert_depends :
  ~ env_independent (W:=unit) (py_assert false).
Proof.
  intros H. specialize (H (mk_env [] [] []) (mk_env ["-O"] [] []) tt). discriminate H.
Qed.

(** ** Scripts without handlers: where their exceptions come from *)

Section HandlerFacts.
Variable library_call : forall A, M W A -> Prop.




End HandlerFacts.

Lemma preserves_Ok (R : W -> W -> Prop) {A} (m : M W A) env w a w' :
  preserves R m -> m env w = Ok a w' -> R w w'.
Proof. intros H E. specialize (H env w). rewrite E in H. exact H. Qed.

Lemma preserves_Raise (R : W -> W -> Prop) {A} (m : M W A) env w e w' :
  preserves R m -> m env w = Raise e w' -> R w w'.
Proof. intros H E. specialize (H env w). rewrite E in H. exact H. Qed.

(** A run that has a value completed, in the world it ended in. *)
Lemma run_of_value {A} (r : result W A) a :
  value_of r = Some a -> r = Ok a (final_world r).
Proof. destruct r as [a' w|e w]; simpl; [intros [= ->]; reflexivity | discriminate]. Qed.

(** A run of [bind] is a run of its first half, then of the second. *)
Lemma bind_run {A B} (m : M W A) (k : A -> M W B) env w a w' r :
  m env w = Ok a w' -> k a env w' = r -> bind m k env w = r.
Proof. intros Hm Hk. unfold bind. rewrite Hm. exact Hk. Qed.

(** A completed run of [bind] is a completed run of each half. *)
Lemma bind_Ok {A B} (m : M W A) (k : A -> M W B) env w b w'' :
  bind m k env w = Ok b w'' ->
  exists a w', m env w = Ok a w' /\ k a env w' = Ok b w''.
Proof.
  unfold bind. destruct (m env w) as [a w'|e w']; [eauto | discriminate].
Qed.

End MonadFacts.

(** An equation between closed terms, checked by evaluating both sides. *)
Ltac by_vm := match goal with |- ?x = ?y => vm_cast_no_check (eq_refl y) end.





Ltac ro_step HP :=
  match goal with
  | |- raises_only _ (bind _ _) => apply ro_bind; [|intros ?]
  | |- raises_only _ (ret _) => apply ro_ret
  | |- raises_only _ (raise (LibraryError _ _)) => apply ro_raise, HP
  | |- raises_only _ (lift_option _ _ _) => apply ro_lift_option, HP
  | |- raises_only _ (map_m _ _) => apply ro_map_m; intros ?
  | |- raises_only _ (for_each _ _) => apply ro_for_each; intros ?
  | |- raises_only _ (with_as _ _ _) => apply ro_with_as; [|intros ?|intros ?]
  | |- raises_only _ get => apply ro_get
  | |- raises_only _ (put _) => apply ro_put
  | |- raises_only _ (modify _) => apply ro_modify
  | |- raises_only _ (match ?x with _ => _ end) => destruct x
  end.

Ltac pr_step Hrefl Htrans :=
  match goal with
  | |- preserves _ (bind _ _) => apply pr_bind; [apply Htrans| |intros ?]
  | |- preserves _ (ret _) => apply pr_ret, Hrefl
  | |- preserves _ (raise _) => apply pr_raise, Hrefl
  | |- preserves _ (lift_option _ _ _) => apply pr_lift_option, Hrefl
  | |- preserves _ (py_assert _) => apply pr_py_assert, Hrefl
  | |- preserves _ (map_m _ _) => apply pr_map_m; [apply Hrefl | apply Htrans | intros ?]
  | |- preserves _ (for_each _ _) => apply pr_for_each; [apply Hrefl | apply Htrans | intros ?]
  | |- preserves _ (with_as _ _ _) => apply pr_with_as; [apply Htrans | | intros ? | intros ?]
  | |- preserves _ get => apply pr_get, Hrefl
  | |- preserves _ (match ?x with _ => _ end) => destruct x
  end.

(* ===================================================================== *)
(** * Facts about read_basics.py *)
(* ===================================================================== *)

Module ReadBasicsFacts.
Import Np ReadBasics.

(** ** The spike-time window *)

(** A loop that appends one item per element builds the mapped list. *)
Lemma fold_left_append {A B} (f : A -> B) (xs : list A) (acc : list B) :
  fold_left (fun acc x => acc ++ [f x]) xs acc = acc ++ map f xs.
Proof.
  revert acc. induction xs as [|x xs IH]; intros acc; simpl.
  - rewrite app_nil_r. reflexivity.
  - rewrite IH, <- app_assoc. reflexivity.
Qed.

Lemma trial_spikes_loop_map unit_spike_times stim_on_times :
  trial_spikes_loop unit_spike_times stim_on_times
  = map (aligned_spikes unit_spike_times) stim_on_times.
Proof. unfold trial_spikes_loop. apply (fold_left_append _ _ []). Qed.

(** What one pass of the loop body keeps. *)
Lemma aligned_spikes_In unit_spike_times time t :
  In t (aligned_spikes unit_spike_times time) ->
  PrimFloat.ltb (PrimFloat.opp before) t = true /\ PrimFloat.ltb t after = true /\
  exists s, In s unit_spike_times /\ t = PrimFloat.sub s time.
Proof.
  unfold aligned_spikes. intros H.
  pose proof (NpFacts.mask_select_tests _ _ _ _ H) as [H1 H2].
  apply NpFacts.mask_select_In in H. apply in_map_iff in H as [s [<- Hs]].
  repeat split; [exact H1 | exact H2 | exists s; split; [exact Hs | reflexivity]].
Qed.

(** The loop of the script against one that aligns every pass to the first
    onset: the second arrays differ. *)
Example trial_spikes_per_onset :
  trial_spikes_loop [4.0; 5.0; 6.5; 8.5; 9.0]%float [5.5; 7.0]%float
  = [[-0.5; 1.0]; [-0.5; 1.5; 2.0]]%float.
Proof. reflexivity. Qed.

Example aligned_spikes_example :
  aligned_spikes [4.0; 5.0; 6.5; 8.5; 9.0]%float 5.5%float = [-0.5; 1.0]%float.
Proof. reflexivity. Qed.

(** Not-a-number never passes the window. *)
Example aligned_spikes_nan :
  aligned_spikes [PrimFloat.nan; 6.0%float] 5.5%float = [0.5%float].
Proof. reflexivity. Qed.

(** ** The script as a whole *)

Ltac unfold_library :=
  unfold read_basics, py_import, DandiAPIClient, client_exit, get_dandiset,
         get_asset_by_path, get_content_url, NWBHDF5IO, io_read, dataset_access,
         stimulus_getitem, plot;
  cbv zeta.




Lemma ro_lib_call (P : exn -> Prop) :
  (forall cls msg, P (LibraryError cls msg)) -> raises_only P lib_call.
Proof.
  intros HP env w. unfold lib_call.
  destruct (pending w) as [|[[cls msg]|] p]; simpl; auto.
Qed.

Ltac ro_script HP :=
  repeat first [ ro_step HP | apply ro_lib_call, HP ].


(** The handle table only grows at [NWBHDF5IO(...)], and no statement of the
    script closes a handle. *)
Definition same_handles (w w' : World) : Prop := handles w' = handles w.

Lemma same_handles_refl w : same_handles w w.
Proof. reflexivity. Qed.

Lemma same_handles_trans w1 w2 w3 :
  same_handles w1 w2 -> same_handles w2 w3 -> same_handles w1 w3.
Proof. unfold same_handles. congruence. Qed.

Lemma pr_lib_call : preserves same_handles lib_call.
Proof.
  intros env w. unfold lib_call.
  destruct (pending w) as [|[[cls msg]|] p]; reflexivity.
Qed.

Ltac pr_script :=
  repeat first
    [ pr_step same_handles_refl same_handles_trans
    | apply pr_lib_call
    | apply pr_modify; intros ?; reflexivity ].

Lemma NWBHDF5IO_handles path mode driver env w io w' :
  NWBHDF5IO path mode driver env w = Ok io w' ->
  io = length (handles w) /\ handles w' = handles w ++ [(path, true)].
Proof.
  unfold NWBHDF5IO, bind, lib_call, get, put, ret.
  destruct (pending w) as [|[[cls msg]|] p]; simpl; intros [= <- <-]; split; reflexivity.
Qed.

(** A completed run of the script leaves exactly one more handle in the
    table, and leaves it open: [io] is opened on line 122 and never closed. *)
Lemma read_basics_handles env w w' :
  read_basics env w = Ok tt w' ->
  exists path, handles w' = handles w ++ [(path, true)].
Proof.
  intros H. unfold read_basics in H. cbv zeta in H.
  apply bind_Ok in H as (? & w1 & H1 & H).
  apply bind_Ok in H as (? & w2 & H2 & H).
  apply bind_Ok in H as (? & w3 & H3 & H).
  apply bind_Ok in H as (? & w4 & H4 & H).
  apply bind_Ok in H as (s3_path & w5 & H5 & H).
  apply bind_Ok in H as (io & w6 & H6 & H).
  apply (preserves_Ok same_handles) in H1; [|unfold_library; pr_script].
  apply (preserves_Ok same_handles) in H2; [|unfold_library; pr_script].
  apply (preserves_Ok same_handles) in H3; [|unfold_library; pr_script].
  apply (preserves_Ok same_handles) in H4; [|unfold_library; pr_script].
  apply (preserves_Ok same_handles) in H5; [|unfold_library; pr_script].
  apply NWBHDF5IO_handles in H6 as [-> H6].
  apply (preserves_Ok same_handles) in H; [|unfold_library; pr_script].
  exists s3_path. unfold same_handles in *. congruence.
Qed.

(** In the sample world the script runs to its end, and its [assert] holds. *)
Lemma read_basics_sample_run :
  value_of (read_basics env0 sample_world) = Some tt /\
  handles (final_world (read_basics env0 sample_world)) = [(sample_url, true)].
Proof. split; by_vm. Qed.





End ReadBasicsFacts.

(* ===================================================================== *)
(** * Facts about linking_data.py *)
(* ===================================================================== *)

Module LinkingFacts.
Import Linking.

(** ** The run of the script in a fresh interpreter *)

Lemma data_array_reshape : Np.reshape (Np.arange 1000) [100; 10] = Some data_array.
Proof. reflexivity. Qed.

(** ** The script as a whole *)


Ltac unfold_library :=
  unfold py_import, np_arange, ndarray_reshape, NWBFile, TimeSeries, H5DataIO,
         get_manager, add_acquisition, get_acquisition, ts_data, NWBHDF5IO, io_close,
         io_write, io_read, write_series, read_series, write_dataset, write_h5dataset,
         manager_lookup, manager_register, type_error;
  cbv zeta.


Lemma ro_lib_call_linking (P : exn -> Prop) :
  (forall cls msg, P (LibraryError cls msg)) -> raises_only P lib_call.
Proof.
  intros HP env w. unfold lib_call.
  destruct (pending w) as [|[[cls msg]|] p]; simpl; auto.
Qed.

Lemma ro_load (P : exn -> Prop) l :
  (forall cls msg, P (LibraryError cls msg)) -> raises_only P (load l).
Proof. intros HP env w. unfold load. destruct (heap w !! l); simpl; auto. Qed.

Lemma ro_alloc (P : exn -> Prop) o : raises_only P (alloc o).
Proof. intros env w. exact I. Qed.

Lemma ro_store (P : exn -> Prop) l o : raises_only P (store l o).
Proof. intros env w. exact I. Qed.

Ltac ro_script HP :=
  repeat first
    [ ro_step HP
    | apply ro_lib_call_linking, HP
    | apply ro_load, HP
    | apply ro_alloc
    | apply ro_store ].



(** ** No statement of the script changes an array *)

Lemma arrays_kept_refl w : arrays_kept w w.
Proof. intros l a H. exact H. Qed.

Lemma arrays_kept_trans w1 w2 w3 :
  arrays_kept w1 w2 -> arrays_kept w2 w3 -> arrays_kept w1 w3.
Proof. intros H12 H23 l a H. apply H23, H12, H. Qed.

Lemma arrays_kept_pending p w : arrays_kept w (set_pending p w).
Proof. intros l a H. exact H. Qed.

Lemma arrays_kept_files fs w : arrays_kept w (set_files fs w).
Proof. intros l a H. exact H. Qed.

Lemma arrays_kept_alloc o w : arrays_kept w (set_heap (heap w ++ [o]) w).
Proof. intros l a H. simpl. apply lookup_app_l_Some, H. Qed.

(** Replacing an object that is not an array keeps the arrays. *)
Lemma arrays_kept_store l o o0 w :
  heap w !! l = Some o0 -> (forall a, o0 <> ONdarray a) ->
  arrays_kept w (set_heap (<[l := o]> (heap w)) w).
Proof.
  intros Hl Hna l' a H. simpl.
  destruct (decide (l' = l)) as [->|Hne].
  - rewrite Hl in H. injection H as ->. exfalso. exact (Hna a eq_refl).
  - rewrite list_lookup_insert_ne by congruence. exact H.
Qed.

Lemma kept_lib_call : preserves arrays_kept lib_call.
Proof.
  intros env w. unfold lib_call.
  destruct (pending w) as [|[[cls msg]|] p]; simpl;
    first [apply arrays_kept_refl | apply arrays_kept_pending].
Qed.

Lemma kept_load l : preserves arrays_kept (load l).
Proof. intros env w. unfold load. destruct (heap w !! l); apply arrays_kept_refl. Qed.

Lemma kept_alloc o : preserves arrays_kept (alloc o).
Proof. intros env w. apply arrays_kept_alloc. Qed.

(** [load l] followed by a [store] at [l] of the object changed, when the
    object is not an array. *)
Lemma kept_update l (k : obj -> M World unit) :
  (forall o env w, heap w !! l = Some o ->
     match k o env w with Ok _ w' => arrays_kept w w' | Raise _ w' => arrays_kept w w' end) ->
  preserves arrays_kept (bind (load l) k).
Proof.
  intros Hk env w. unfold bind, load.
  destruct (heap w !! l) as [o|] eqn:E; [apply Hk, E | apply arrays_kept_refl].
Qed.

Ltac kept_store :=
  match goal with
  | E : heap ?w !! ?l = Some _ |- arrays_kept ?w (set_heap (<[?l := _]> (heap ?w)) ?w) =>
      apply (arrays_kept_store _ _ _ _ E); intros ?; discriminate
  end.

Lemma kept_add_acquisition nwbfile ts : preserves arrays_kept (add_acquisition nwbfile ts).
Proof.
  unfold add_acquisition.
  apply pr_bind; [apply arrays_kept_trans | apply kept_lib_call | intros _].
  apply kept_update. intros f env w E. unfold bind, load.
  destruct (heap w !! ts) as [t|]; [|apply arrays_kept_refl].
  destruct f, t; try apply arrays_kept_refl.
  destruct (dict_get _ _); [apply arrays_kept_refl|].
  unfold store. kept_store.
Qed.

Lemma kept_io_close io : preserves arrays_kept (io_close io).
Proof.
  unfold io_close.
  apply pr_bind; [apply arrays_kept_trans | apply kept_lib_call | intros _].
  apply kept_update. intros o env w E.
  destruct o; try apply arrays_kept_refl. unfold store. kept_store.
Qed.

Lemma kept_manager_register mgr ts p : preserves arrays_kept (manager_register mgr ts p).
Proof.
  unfold manager_register. apply kept_update. intros o env w E.
  destruct o; try apply arrays_kept_refl. unfold store. kept_store.
Qed.

Ltac kept_script :=
  repeat first
    [ apply kept_add_acquisition
    | apply kept_io_close
    | apply kept_manager_register
    | pr_step arrays_kept_refl arrays_kept_trans
    | apply kept_lib_call
    | apply kept_load
    | apply kept_alloc
    | apply pr_modify; [intros ?; apply arrays_kept_files] ].

Ltac unfold_library_kept :=
  unfold py_import, np_arange, ndarray_reshape, NWBFile, TimeSeries, H5DataIO,
         get_manager, get_acquisition, ts_data, NWBHDF5IO,
         io_write, io_read, write_series, read_series, write_dataset, write_h5dataset,
         manager_lookup, type_error;
  cbv zeta.

Lemma kept_create_test_data dflt : preserves arrays_kept (create_test_data dflt).
Proof. unfold create_test_data. unfold_library_kept. kept_script. Qed.

Lemma kept_link_datasets dflt td : preserves arrays_kept (link_datasets dflt td).
Proof. unfold link_datasets. unfold_library_kept. kept_script. Qed.

Lemma kept_link_containers dflt td : preserves arrays_kept (link_containers dflt td).
Proof. unfold link_containers. unfold_library_kept. kept_script. Qed.

(** The one entry point that changes an array is not among them. *)
Lemma ndarray_setitem_changes :
  ~ preserves arrays_kept (ndarray_setitem 0 0 7%Z).
Proof.
  intros H.
  specialize (H env0 (mk_world [ONdarray (Np.mk_ndarray [1] [0%Z])] ∅ [])
                0 (Np.mk_ndarray [1] [0%Z]) eq_refl).
  discriminate H.
Qed.

(** ** Writing a file touches no other file *)

Section Frame.
Variable path : string.

Lemma fk_refl w : files_kept_except path w w.
Proof. intros f _. reflexivity. Qed.

Lemma fk_trans w1 w2 w3 :
  files_kept_except path w1 w2 -> files_kept_except path w2 w3 ->
  files_kept_except path w1 w3.
Proof. intros H12 H23 f Hf. rewrite (H23 f Hf). apply H12, Hf. Qed.

Lemma fk_lib_call : preserves (files_kept_except path) lib_call.
Proof.
  intros env w. unfold lib_call.
  destruct (pending w) as [|[[cls msg]|] p]; simpl; intros f _; reflexivity.
Qed.

Lemma fk_load l : preserves (files_kept_except path) (load l).
Proof. intros env w. unfold load. destruct (heap w !! l); apply fk_refl. Qed.

Lemma fk_alloc o : preserves (files_kept_except path) (alloc o).
Proof. intros env w f _. reflexivity. Qed.

Lemma fk_store l o : preserves (files_kept_except path) (store l o).
Proof. intros env w f _. reflexivity. Qed.

Lemma fk_insert h w :
  files_kept_except path w (set_files (<[path := h]> (files w)) w).
Proof. intros f Hf. simpl. apply lookup_insert_ne. congruence. Qed.

End Frame.

Ltac fk_script path :=
  repeat first
    [ pr_step (fk_refl path) (fk_trans path)
    | apply fk_lib_call
    | apply fk_load
    | apply fk_alloc
    | apply fk_store
    | apply pr_modify; intros ?; apply fk_insert ].

(** [io.write] changes the file of its handle and no other, whether it
    completes or raises. *)
Lemma io_write_frame dflt io nwbfile link_data env w path mode mgr is_open :
  heap w !! io = Some (ONWBHDF5IO path mode mgr is_open) ->
  files_kept_except path w (final_world (io_write dflt io nwbfile link_data env w)).
Proof.
  intros Hio. unfold io_write. unfold bind at 1.
  pose proof (fk_lib_call path env w) as Hc.
  assert (Hh : heap (final_world (lib_call env w)) = heap w).
  { unfold lib_call. destruct (pending w) as [|[[cls msg]|] p]; reflexivity. }
  destruct (lib_call env w) as [[] w0|e w0]; simpl in *; [|exact Hc].
  unfold bind at 1. unfold load at 1. rewrite Hh, Hio.
  destruct is_open; [|exact Hc].
  match goal with
  | |- files_kept_except _ _ (final_world (?m env w0)) =>
      assert (Hm : preserves (files_kept_except path) m)
        by (unfold_library; fk_script path);
      specialize (Hm env w0); destruct (m env w0); simpl;
      exact (fk_trans path _ _ _ Hc Hm)
  end.
Qed.

(** ** Running the library on a heap that extends a given one *)

Section Run.
Variables (h : list obj) (env : Env).
Implicit Types (l : list obj) (o : obj) (fs : gmap string h5file).

Lemma run_lib_call hp fs : lib_call env (mk_world hp fs []) = Ok tt (mk_world hp fs []).
Proof. reflexivity. Qed.

Lemma run_alloc l o fs p :
  alloc o env (mk_world (h ++ l) fs p)
  = Ok (length h + length l) (mk_world (h ++ (l ++ [o])) fs p).
Proof. unfold alloc, set_heap. simpl. rewrite length_app, <- app_assoc. reflexivity. Qed.

Lemma lookup_new l k : (h ++ l) !! (length h + k) = l !! k.
Proof. rewrite lookup_app_r by lia. f_equal. lia. Qed.

Lemma run_load_new l k o fs p :
  l !! k = Some o ->
  load (length h + k) env (mk_world (h ++ l) fs p) = Ok o (mk_world (h ++ l) fs p).
Proof. intros H. unfold load. simpl. rewrite lookup_new, H. reflexivity. Qed.

Lemma run_load_old l i o fs p :
  h !! i = Some o ->
  load i env (mk_world (h ++ l) fs p) = Ok o (mk_world (h ++ l) fs p).
Proof. intros H. unfold load. simpl. rewrite (lookup_app_l_Some _ _ _ _ H). reflexivity. Qed.

Lemma run_store_new l k o fs p :
  store (length h + k) o env (mk_world (h ++ l) fs p)
  = Ok tt (mk_world (h ++ <[k := o]> l) fs p).
Proof. unfold store, set_heap. simpl. rewrite insert_app_r. reflexivity. Qed.

End Run.

Lemma resolve_dataset_S k fs file c name f :
  resolve_dataset (S k) fs file c name f =
  match fs !! file with
  | None => None
  | Some h =>
      match dict_get name (group_of c h) with
      | None => None
      | Some (H5Series _ _ d t) =>
          match dataset_of f d t with
          | H5Array a => Some a
          | H5ExternalData file' c' name' f' => resolve_dataset k fs file' c' name' f'
          end
      | Some (H5ExternalLink file' c' name') => resolve_dataset k fs file' c' name' f
      end
  end.
Proof. reflexivity. Qed.

Lemma resolve_series_S k fs file c name :
  resolve_series (S k) fs file c name =
  match fs !! file with
  | None => None
  | Some h =>
      match dict_get name (group_of c h) with
      | None => None
      | Some (H5Series src unit _ _) => Some ((file, c, name), src, unit)
      | Some (H5ExternalLink file' c' name') => resolve_series k fs file' c' name'
      end
  end.
Proof. reflexivity. Qed.

Ltac run_norm :=
  cbn beta iota;
  cbn [map_m length app Nat.add dict_get insert list_insert List.find fmap option_fmap
       option_map files heap pending group_of dataset_of
       h5_acquisition h5_stimulus h5_meta default loc_lookup lift_option
       source session_description identifier session_start_time file_create_date].

(** Runs a library program on a world [mk_world (h ++ l) fs []], one [bind]
    at a time, and finds its result. *)
Ltac run :=
  run_norm;
  try (rewrite resolve_dataset_S; run_norm);
  try (rewrite resolve_series_S; run_norm);
  lazymatch goal with
  | |- bind _ _ _ _ = _ => eapply bind_run; [run | run]
  | |- lib_call _ _ = _ => apply run_lib_call
  | |- alloc _ _ _ = _ => apply run_alloc
  | |- load (length _ + _) _ _ = _ => eapply run_load_new; reflexivity
  | |- load _ _ _ = _ => eapply run_load_old; eassumption
  | |- store _ _ _ _ = _ => apply run_store_new
  | |- context [String.eqb ?x ?x] => rewrite (String.eqb_refl x); run
  | |- context [(<[?k := ?v]> ?m) !! ?k] => rewrite (lookup_insert_eq m k v); run
  | |- _ => reflexivity
  end.

Ltac run_library :=
  unfold write_then_read, session_with, NWBFile, TimeSeries, add_acquisition, NWBHDF5IO,
    io_write, io_close, io_read, get_acquisition, get_stimulus, write_series, read_series,
    write_dataset, manager_lookup, manager_register, array_values, type_error;
  cbv delta [max_link_depth];
  run.

(** Reading an array object whose values the run finds. *)
Ltac run_array :=
  unfold array_of;
  match goal with
  | |- value_of (array_values ?d ?e ?w) = Some ?x =>
      replace (array_values d e w) with (Ok x w : result World (Np.ndarray Z));
      [reflexivity | symmetry; run_library]
  end.

(** C5. For every fresh session container and every [TimeSeries] [ts]: after
    [add_acquisition(ts)] the container holds [ts] under its name in the
    acquisition category, [get_acquisition] with that name returns [ts]
    itself, and the stimulus category does not have it. *)
Theorem add_then_get_acquisition meta ts name src unit d t env w :
  pending w = [] ->
  heap w !! ts = Some (OTimeSeries name src unit d t) ->
  exists nwbfile w',
    session_with meta ts env w = Ok nwbfile w' /\
    heap w' !! nwbfile = Some (ONWBFile meta [(name, ts)] []) /\
    get_acquisition nwbfile name env w' = Ok ts w' /\
    get_stimulus nwbfile name env w' = Raise (LibraryError "KeyError" name) w'.
Proof.
  destruct w as [h fs p]. simpl. intros -> Hts. destruct meta.
  rewrite <- (app_nil_r h).
  eexists _, _. split; [run_library|].
  split; [cbn [heap]; rewrite lookup_new; reflexivity|].
  split; run_library.
Qed.

(** C1. Write/read round trip: a session container with a named
    [TimeSeries] in its acquisition group, written with [io.write] and
    reopened with [io.read], gives under the same name a [TimeSeries] with the
    same name, data array and timestamps array.  The write puts the record,
    with the values of its two arrays, into the file (and touches no other
    file); the record that comes back is a new object, not the one written,
    and its two arrays are datasets of that file, whose values are the ones
    written. *)
Theorem write_read_roundtrip dflt meta name src unit d t a b filename env w :
  pending w = [] ->
  heap w !! d = Some (ONdarray a) ->
  heap w !! t = Some (ONdarray b) ->
  exists ts' w' d' t',
    write_then_read dflt meta name src unit d t filename env w = Ok ts' w' /\
    files w' !! filename
      = Some (mk_h5file meta [(name, H5Series src unit (H5Array a) (H5Array b))] []) /\
    (forall f, f <> filename -> files w' !! f = files w !! f) /\
    heap w !! ts' = None /\
    heap w' !! ts' = Some (OTimeSeries name src unit d' t') /\
    heap w' !! d' = Some (ODataset filename Acquisition name FData) /\
    heap w' !! t' = Some (ODataset filename Acquisition name FTimestamps) /\
    array_of w' d' = Some a /\ array_of w' t' = Some b.
Proof.
  destruct w as [h fs p]. simpl. intros -> Hd Ht. destruct meta.
  rewrite <- (app_nil_r h).
  eexists _, _, _, _. split; [run_library|].
  split; [cbn [files]; apply lookup_insert_eq|].
  split; [intros f Hf; cbn [files]; apply lookup_insert_ne; congruence|].
  split; [rewrite app_nil_r; apply lookup_ge_None; lia|].
  split; [cbn [heap]; rewrite lookup_new; reflexivity|].
  split; [cbn [heap]; rewrite lookup_new; reflexivity|].
  split; [cbn [heap]; rewrite lookup_new; reflexivity|].
  split; run_array.
Qed.

Lemma add_then_get_acquisition_witness :
  exists nwbfile w',
    session_with sample_meta 2 env0 sample_world = Ok nwbfile w' /\
    heap w' !! nwbfile = Some (ONWBFile sample_meta [("ts", 2)] []) /\
    get_acquisition nwbfile "ts" env0 w' = Ok 2 w' /\
    get_stimulus nwbfile "ts" env0 w' = Raise (LibraryError "KeyError" "ts") w'.
Proof.
  apply (add_then_get_acquisition sample_meta 2 "ts" "PyNWB tutorial" "SIunit" 0 1
                                  env0 sample_world).
  - reflexivity.
  - reflexivity.
Defined.

Lemma write_read_roundtrip_witness :
  exists ts' w' d' t',
    write_then_read true sample_meta "test_timeseries1" "PyNWB tutorial" "SIunit" 0 1
                    "external1_example.nwb" env0 sample_world = Ok ts' w' /\
    files w' !! "external1_example.nwb"
      = Some (mk_h5file sample_meta
                [("test_timeseries1",
                  H5Series "PyNWB tutorial" "SIunit"
                           (H5Array (Np.mk_ndarray [2; 3] [0; 1; 2; 3; 4; 5]%Z))
                           (H5Array (Np.arange 2)))] []) /\
    (forall f, f <> "external1_example.nwb" -> files w' !! f = files sample_world !! f) /\
    heap sample_world !! ts' = None /\
    heap w' !! ts' = Some (OTimeSeries "test_timeseries1" "PyNWB tutorial" "SIunit" d' t') /\
    heap w' !! d'
      = Some (ODataset "external1_example.nwb" Acquisition "test_timeseries1" FData) /\
    heap w' !! t'
      = Some (ODataset "external1_example.nwb" Acquisition "test_timeseries1" FTimestamps) /\
    array_of w' d' = Some (Np.mk_ndarray [2; 3] [0; 1; 2; 3; 4; 5]%Z) /\
    array_of w' t' = Some (Np.arange 2).
Proof.
  apply (write_read_roundtrip true sample_meta "test_timeseries1" "PyNWB tutorial" "SIunit"
                              0 1 _ _ "external1_example.nwb" env0 sample_world).
  - reflexivity.
  - reflexivity.
  - reflexivity.
Defined.

(** ** The three parts of the script, run in a fresh interpreter *)

Lemma create_test_data_run dflt :
  create_test_data dflt env0 fresh_world = Ok expected_td (world1 dflt).
Proof. unfold world1. apply run_of_value. destruct dflt; by_vm. Qed.

Lemma link_datasets_run dflt :
  link_datasets dflt expected_td env0 (world1 dflt) = Ok expected_dl (world2 dflt).
Proof. unfold world2. apply run_of_value. destruct dflt; by_vm. Qed.

Lemma link_containers_run dflt :
  link_containers dflt expected_td env0 (world2 dflt) = Ok expected_cl (world3 dflt).
Proof. unfold world3. apply run_of_value. destruct dflt; by_vm. Qed.

(** The script runs to its end, whatever the library's default for
    [link_data]. *)
Lemma linking_data_run dflt :
  linking_data dflt env0 fresh_world
  = Ok (expected_td, expected_dl, expected_cl) (world3 dflt).
Proof.
  unfold linking_data.
  eapply bind_run; [apply create_test_data_run|].
  eapply bind_run; [apply link_datasets_run|].
  eapply bind_run; [apply link_containers_run|].
  reflexivity.
Qed.

(** The handles at the end: those opened with mode ["w"] are closed, the
    three opened for reading are not. *)
Lemma linking_data_handles dflt :
  io_handles (world3 dflt) =
  [ (6, "external1_example.nwb", Some "w", false);
    (10, "external2_example.nwb", Some "w", false);
    (13, "external1_example.nwb", None, true);
    (22, "external_linkdataset_example.nwb", Some "w", false);
    (24, "external1_example.nwb", None, true);
    (29, "external2_example.nwb", None, true);
    (35, "external_linkcontainer_example.nwb", Some "w", false) ].
Proof. destruct dflt; by_vm. Qed.

(** C2, the counterexample: when [linking_data.py] ends, the three handles
    it opened for reading have never been closed. *)
Lemma read_handles_left_open :
  linking_data true env0 fresh_world
    = Ok (expected_td, expected_dl, expected_cl) (world3 true) /\
  open_handles (world3 true) =
    [ (13, "external1_example.nwb", None, true);
      (24, "external1_example.nwb", None, true);
      (29, "external2_example.nwb", None, true) ] /\
  open_handles (world3 true) <> [].
Proof.
  assert (E : open_handles (world3 true) =
              [ (13, "external1_example.nwb", None, true);
                (24, "external1_example.nwb", None, true);
                (29, "external2_example.nwb", None, true) ]) by by_vm.
  split; [apply linking_data_run|]. split; [exact E|].
  rewrite E. discriminate.
Qed.

(** C3. Frame property of linking: writing the linking files leaves the two
    source files as they were, and what is written holds a reference to the
    record (filename3, through the shared manager) or to the data array
    (filename4, with [link_data=True]) in the source file, not a copy: the
    reference is followed when the linking file is read, so that the data read
    through it are whatever the source file holds then. *)
Theorem linking_references_sources dflt :
  create_test_data dflt env0 fresh_world = Ok expected_td (world1 dflt) /\
  link_datasets dflt expected_td env0 (world1 dflt) = Ok expected_dl (world2 dflt) /\
  link_containers dflt expected_td env0 (world2 dflt) = Ok expected_cl (world3 dflt) /\
  h5_acquisition <$> files (world1 dflt) !! filename1 expected_td
    = Some [stored_series "test_timeseries1"] /\
  h5_acquisition <$> files (world1 dflt) !! filename2 expected_td
    = Some [stored_series "test_timeseries2"] /\
  files (world2 dflt) !! filename1 expected_td = files (world1 dflt) !! filename1 expected_td /\
  files (world2 dflt) !! filename2 expected_td = files (world1 dflt) !! filename2 expected_td /\
  files (world3 dflt) !! filename1 expected_td = files (world1 dflt) !! filename1 expected_td /\
  files (world3 dflt) !! filename2 expected_td = files (world1 dflt) !! filename2 expected_td /\
  h5_acquisition <$> files (world3 dflt) !! filename4 expected_td
    = Some [linked_series "test_timeseries4"; linked_series "test_timeseries5"] /\
  h5_acquisition <$> files (world3 dflt) !! filename3 expected_td
    = Some [("test_timeseries1",
             H5ExternalLink "external1_example.nwb" Acquisition "test_timeseries1");
            ("test_timeseries2",
             H5ExternalLink "external2_example.nwb" Acquisition "test_timeseries2")] /\
  forall a,
    value_of (read_data (filename4 expected_td) "test_timeseries4" env0
                (overwrite_data (world3 dflt) (filename1 expected_td) "test_timeseries1" a))
      = Some a /\
    value_of (read_data (filename4 expected_td) "test_timeseries5" env0
                (overwrite_data (world3 dflt) (filename1 expected_td) "test_timeseries1" a))
      = Some a /\
    value_of (read_data (filename3 expected_td) "test_timeseries1" env0
                (overwrite_data (world3 dflt) (filename1 expected_td) "test_timeseries1" a))
      = Some a.
Proof.
  split; [apply create_test_data_run|].
  split; [apply link_datasets_run|].
  split; [apply link_containers_run|].
  destruct dflt.
  - do 8 (split; [by_vm|]).
    intros a. split; [by_vm|]. split; by_vm.
  - do 8 (split; [by_vm|]).
    intros a. split; [by_vm|]. split; by_vm.
Qed.

(** C7, the counterexample: [test_ts1] and [test_ts2] are two records that
    hold the same array [data], which the script made, and so do [io1] and
    [io2] the manager; a change of the array made through [test_ts1] is seen
    through [test_ts2]. *)
Lemma containers_share_script_objects :
  linking_data true env0 fresh_world
    = Ok (expected_td, expected_dl, expected_cl) (world3 true) /\
  shares_mutable (world3 true) (test_ts1 expected_td) (test_ts2 expected_td)
                 (data expected_td) /\
  shares_mutable (world3 true) (io1 expected_cl) (io2 expected_cl) (manager expected_cl) /\
  first_value (array_of (world3 true) (data expected_td)) = Some 0%Z /\
  first_value (value_of (mutate_and_observe (test_ts1 expected_td) (test_ts2 expected_td)
                                            0 42 env0 (world3 true))) = Some 42%Z.
Proof.
  split; [apply linking_data_run|].
  split.
  { unfold shares_mutable, holds_ref, script_created_mutable.
    vm_compute. repeat split; auto. intros H. discriminate H. }
  split.
  { unfold shares_mutable, holds_ref, script_created_mutable.
    vm_compute. repeat split; auto. intros H. discriminate H. }
  split; by_vm.
Qed.

(** C7, as the code has it: the arrays [data] and [timestamps] and the
    manager are shared between containers, by reference; but no statement of
    the script changes an array, so each array holds at the end what it was
    made with. *)
Theorem arrays_shared_never_mutated dflt :
  linking_data dflt env0 fresh_world
    = Ok (expected_td, expected_dl, expected_cl) (world3 dflt) /\
  heap (world3 dflt) !! test_ts1 expected_td
    = Some (OTimeSeries "test_timeseries1" "PyNWB tutorial" "SIunit"
                        (data expected_td) (timestamps expected_td)) /\
  heap (world3 dflt) !! test_ts2 expected_td
    = Some (OTimeSeries "test_timeseries2" "PyNWB tutorial" "SIunit"
                        (data expected_td) (timestamps expected_td)) /\
  heap (world3 dflt) !! test_ts4 expected_dl
    = Some (OTimeSeries "test_timeseries4" "PyNWB tutorial" "SIunit"
                        (timeseries_1_data expected_dl) (timestamps expected_td)) /\
  heap (world3 dflt) !! test_ts5 expected_dl
    = Some (OTimeSeries "test_timeseries5" "PyNWB tutorial" "SIunit"
                        19 (timestamps expected_td)) /\
  heap (world3 dflt) !! 19 = Some (OH5DataIO (timeseries_1_data expected_dl) true) /\
  heap (world3 dflt) !! io1 expected_cl
    = Some (ONWBHDF5IO (filename1 expected_td) None (manager expected_cl) true) /\
  heap (world3 dflt) !! io2 expected_cl
    = Some (ONWBHDF5IO (filename2 expected_td) None (manager expected_cl) true) /\
  heap (world3 dflt) !! io3 expected_cl
    = Some (ONWBHDF5IO (filename3 expected_td) (Some "w") (manager expected_cl) false) /\
  heap (world1 dflt) !! data expected_td = Some (ONdarray data_array) /\
  heap (world3 dflt) !! data expected_td = Some (ONdarray data_array) /\
  heap (world1 dflt) !! timestamps expected_td = Some (ONdarray timestamps_array) /\
  heap (world3 dflt) !! timestamps expected_td = Some (ONdarray timestamps_array) /\
  preserves arrays_kept (create_test_data dflt) /\
  (forall td, preserves arrays_kept (link_datasets dflt td)) /\
  (forall td, preserves arrays_kept (link_containers dflt td)).
Proof.
  assert (H : preserves arrays_kept (create_test_data dflt) /\
              (forall td, preserves arrays_kept (link_datasets dflt td)) /\
              (forall td, preserves arrays_kept (link_containers dflt td))).
  { split; [apply kept_create_test_data|].
    split; intros td; [apply kept_link_datasets | apply kept_link_containers]. }
  split; [apply linking_data_run|].
  destruct dflt.
  - do 12 (split; [by_vm|]). exact H.
  - do 12 (split; [by_vm|]). exact H.
Qed.

(** C9. Every [TimeSeries] the script constructs, [test_ts1], [test_ts2],
    [test_ts4] and [test_ts5], has data of shape (100, 10) and timestamps of
    length 100: the first dimension of the data is the length of the
    timestamps.  So have the two records that the library makes on reading. *)
Theorem timeseries_first_dimensions dflt :
  linking_data dflt env0 fresh_world
    = Ok (expected_td, expected_dl, expected_cl) (world3 dflt) /\
  map (series_shapes (world3 dflt))
      [test_ts1 expected_td; test_ts2 expected_td; test_ts4 expected_dl; test_ts5 expected_dl]
    = [Some ([100; 10], [100]); Some ([100; 10], [100]);
       Some ([100; 10], [100]); Some ([100; 10], [100])] /\
  Forall (fun ts => exists sd st,
            series_shapes (world3 dflt) ts = Some (sd, st) /\
            head sd = Some 100 /\ head st = Some 100)
         (series_from 0 (heap (world3 dflt))).
Proof.
  assert (E : series_from 0 (heap (world3 dflt)) = [4; 8; 16; 18; 20; 27; 32])
    by (destruct dflt; by_vm).
  split; [apply linking_data_run|]. split; [destruct dflt; by_vm|].
  rewrite E.
  repeat constructor; exists [100; 10], [100];
    (split; [destruct dflt; by_vm | split; reflexivity]).
Qed.


End LinkingFacts.

(* ===================================================================== *)
(** * The two scripts together *)
(* ===================================================================== *)

(** C2, as the code has it.  In [linking_data.py] each handle opened with
    mode ["w"] is closed after its write, and the three handles opened for
    reading ([io1] twice, [io2]) are open when the script ends.  In
    [read_basics.py] the one handle, [io], is open when the script ends. *)
Theorem handles_at_exit :
  (forall dflt,
     Linking.linking_data dflt Linking.env0 Linking.fresh_world
       = Ok (Linking.expected_td, Linking.expected_dl, Linking.expected_cl)
            (Linking.world3 dflt) /\
     Linking.io_handles (Linking.world3 dflt) =
       [ (6, "external1_example.nwb", Some "w", false);
         (10, "external2_example.nwb", Some "w", false);
         (13, "external1_example.nwb", None, true);
         (22, "external_linkdataset_example.nwb", Some "w", false);
         (24, "external1_example.nwb", None, true);
         (29, "external2_example.nwb", None, true);
         (35, "external_linkcontainer_example.nwb", Some "w", false) ]) /\
  (forall env w,
     match ReadBasics.read_basics env w with
     | Ok _ w' => exists path,
         ReadBasics.handles w' = ReadBasics.handles w ++ [(path, true)]
     | Raise _ _ => True
     end) /\
  value_of (ReadBasics.read_basics ReadBasics.env0 ReadBasics.sample_world) = Some tt /\
  ReadBasics.handles
    (final_world (ReadBasics.read_basics ReadBasics.env0 ReadBasics.sample_world))
    = [(ReadBasics.sample_url, true)].
Proof.
  split.
  { intros dflt. split; [apply LinkingFacts.linking_data_run|].
    apply LinkingFacts.linking_data_handles. }
  split.
  { intros env w.
    destruct (ReadBasics.read_basics env w) as [[] w'|e w'] eqn:E; [|exact I].
    exact (ReadBasicsFacts.read_basics_handles env w w' E). }
  exact ReadBasicsFacts.read_basics_sample_run.
Qed.



(* ===================================================================== *)
(** * The layout of the arrays *)
(* ===================================================================== *)

Module NpLayout.
Import Np.

Lemma take_drop_seq (j n m k : nat) :
  n + k <= m -> take k (drop n (seq j m)) = seq (j + n) k.
Proof.
  intros H. rewrite drop_seq, take_seq. f_equal. lia.
Qed.

(** The array of line 67, [np.arange(rows * cols).reshape((rows, cols))]:
    the reshape succeeds, and row [i] of the result holds the numbers from
    [i * cols] on, in order (C order). *)
Theorem arange_reshape_rows (rows cols i : nat) :
  i < rows ->
  exists a,
    reshape (arange (rows * cols)) [rows; cols] = Some a /\
    wf a /\
    getitem a i = Some (mk_ndarray [cols] (map Z.of_nat (seq (i * cols) cols))).
Proof.
  intros Hi. unfold reshape, arange. cbn [data size foldr].
  rewrite length_map, length_seq.
  replace (rows * (cols * 1)) with (rows * cols) by lia.
  rewrite Nat.eqb_refl. eexists. split; [reflexivity|]. split.
  - unfold wf. cbn. rewrite length_map, length_seq. lia.
  - unfold getitem. cbn [shape data size foldr].
    destruct (Nat.ltb_spec i rows) as [_|]; [|lia].
    f_equal. f_equal.
    replace (cols * 1) with cols by lia.
    rewrite List.skipn_map, List.firstn_map. f_equal.
    rewrite take_drop_seq; [reflexivity | nia].
Qed.

Lemma arange_reshape_rows_witness :
  exists a,
    reshape (arange (100 * 10)) [100; 10] = Some a /\
    wf a /\
    getitem a 31 = Some (mk_ndarray [10] (map Z.of_nat (seq (31 * 10) 10))).
Proof.
  apply (arange_reshape_rows 100 10 31). lia.
Defined.

End NpLayout.

(* ===================================================================== *)
(** * The runs of read_basics.py *)
(* ===================================================================== *)

Module ReadBasicsRuns.
Import Np ReadBasics NpFacts ReadBasicsFacts.

(** One pass of the inner loop (lines 259-263): the array kept for an onset
    is the spike times of the unit, shifted by the onset, that lie strictly
    inside the window, in their order and as often as they occur; so an
    element is kept exactly when it is a shifted spike time inside the
    window, and none of those is lost. *)
Theorem aligned_spikes_exact (unit_spike_times : list float) (time : float) :
  aligned_spikes unit_spike_times time
  = List.filter (fun t => PrimFloat.ltb (-1.0)%float t && PrimFloat.ltb t 3.0%float)
                (map (fun s => PrimFloat.sub s time) unit_spike_times) /\
  forall t, In t (aligned_spikes unit_spike_times time) <->
            (exists s, In s unit_spike_times /\ t = PrimFloat.sub s time) /\
            PrimFloat.ltb (-1.0)%float t = true /\ PrimFloat.ltb t 3.0%float = true.
Proof.
  assert (E : aligned_spikes unit_spike_times time
    = List.filter (fun t => PrimFloat.ltb (-1.0)%float t && PrimFloat.ltb t 3.0%float)
                (map (fun s => PrimFloat.sub s time) unit_spike_times)).
  { unfold aligned_spikes. apply mask_select_filter. }
  split; [exact E|].
  intros t. rewrite E, filter_In, in_map_iff, andb_true_iff.
  split.
  - intros [(s & <- & Hs) H]. split; [exists s; auto | exact H].
  - intros [(s & Hs & ->) H]. split; [exists s; auto | exact H].
Qed.

(** The inner loop (lines 256-264) appends one array for each stimulus
    onset, in the order of the onsets: [trial_spikes] has as many rows as there
    are onsets, and its [i]-th row is the pass for the [i]-th onset. *)
Theorem trial_spikes_rows (unit_spike_times stim_on_times : list float) :
  length (trial_spikes_loop unit_spike_times stim_on_times) = length stim_on_times /\
  forall i, trial_spikes_loop unit_spike_times stim_on_times !! i
            = aligned_spikes unit_spike_times <$> stim_on_times !! i.
Proof.
  rewrite trial_spikes_loop_map. split.
  - apply length_map.
  - intros i. apply list_lookup_fmap.
Qed.

Lemma Forall_concat_rows {A} (P : A -> Prop) (ls : list (list A)) :
  Forall (Forall P) ls -> Forall P (concat ls).
Proof. induction 1; simpl; [constructor | apply Forall_app; auto]. Qed.

(** The argument of the histogram (line 273): [np.hstack(trial_spikes)]
    fails exactly when there is no stimulus onset; otherwise it has as many
    values as the rows have together, and each of them lies strictly inside
    the window. *)
Theorem hist_input (unit_spike_times stim_on_times : list float) :
  match np_hstack (trial_spikes_loop unit_spike_times stim_on_times) with
  | None => stim_on_times = []
  | Some x =>
      stim_on_times <> [] /\
      length x = sum_list (length <$> trial_spikes_loop unit_spike_times stim_on_times) /\
      Forall (fun t => PrimFloat.ltb (-1.0)%float t = true /\
                       PrimFloat.ltb t 3.0%float = true) x
  end.
Proof.
  rewrite trial_spikes_loop_map.
  destruct stim_on_times as [|time rest]; [reflexivity|].
  cbn [map np_hstack]. split; [discriminate|]. split.
  - generalize (aligned_spikes unit_spike_times time
                  :: map (aligned_spikes unit_spike_times) rest).
    intros ls. induction ls as [|l ls IH]; [reflexivity|].
    cbn. rewrite length_app, IH. reflexivity.
  - apply Forall_concat_rows. rewrite <- (map_cons (aligned_spikes unit_spike_times)).
    apply Forall_forall. intros l Hl. apply list_elem_of_In, in_map_iff in Hl as (t0 & <- & _).
    apply Forall_forall. intros t Ht. apply list_elem_of_In, aligned_spikes_In in Ht as (H1 & H2 & _).
    split; assumption.
Qed.

(** ** [np.where] and the index it feeds *)

Lemma np_where_eq_elem (a : list float) (x : float) : forall k j,
  j ∈ np_where_eq a x k <->
  k <= j /\ exists y, a !! (j - k) = Some y /\ PrimFloat.eqb y x = true.
Proof.
  induction a as [|y a IH]; intros k j; simpl.
  - split; [intros H; inversion H | intros [_ (y & H & _)]; discriminate].
  - assert (Hrest : j ∈ np_where_eq a x (S k) <->
                    k < j /\ exists y', (y :: a) !! (j - k) = Some y' /\ PrimFloat.eqb y' x = true).
    { rewrite IH. split.
      - intros [Hk (y' & Hy & E)]. split; [lia|]. exists y'. split; [|exact E].
        replace (j - k) with (S (j - S k)) by lia. exact Hy.
      - intros [Hk (y' & Hy & E)]. split; [lia|]. exists y'. split; [|exact E].
        replace (j - k) with (S (j - S k)) in Hy by lia. exact Hy. }
    destruct (PrimFloat.eqb y x) eqn:E.
    + rewrite elem_of_cons, Hrest. split.
      * intros [->|[Hk H]]; [|split; [lia | exact H]].
        split; [lia|]. exists y. rewrite Nat.sub_diag. split; [reflexivity | exact E].
      * intros [Hk H]. destruct (decide (j = k)) as [->|Hne]; [left; reflexivity|].
        right. split; [lia | exact H].
    + rewrite Hrest. split.
      * intros [Hk H]. split; [lia | exact H].
      * intros [Hk (y' & Hy & E')]. split; [|eauto].
        destruct (decide (j = k)) as [->|Hne]; [|lia].
        rewrite Nat.sub_diag in Hy. injection Hy as <-. congruence.
Qed.

Lemma np_where_eq_sorted (a : list float) (x : float) : forall k,
  StronglySorted lt (np_where_eq a x k).
Proof.
  induction a as [|y a IH]; intros k; simpl; [constructor|].
  destruct (PrimFloat.eqb y x); [|apply IH].
  constructor; [apply IH|].
  apply Forall_forall. intros j Hj. apply np_where_eq_elem in Hj. lia.
Qed.

Lemma np_where_eq_length (a : list float) (x : float) : forall k,
  length (np_where_eq a x k) = length (List.filter (fun y => PrimFloat.eqb y x) a).
Proof.
  induction a as [|y a IH]; intros k; simpl; [reflexivity|].
  destruct (PrimFloat.eqb y x); simpl; rewrite IH; reflexivity.
Qed.

Lemma take_rows_is_Some {A} (n : nat) (rest : list nat) (d : list A) (idx : list nat) :
  is_Some (take_rows (mk_ndarray (n :: rest) d) idx) <-> Forall (fun i => i < n) idx.
Proof.
  induction idx as [|i idx IH]; simpl.
  - split; [constructor | eauto].
  - unfold getitem. simpl. destruct (Nat.ltb_spec i n) as [Hi|Hi].
    + destruct (take_rows (mk_ndarray (n :: rest) d) idx) as [rs|].
      * split; [|eauto]. intros _. constructor; [exact Hi | apply IH; eauto].
      * split; [intros [? ?]; discriminate|].
        intros H. inversion H as [|? ? _ H']. apply IH in H' as [? ?]. discriminate.
    + split; [intros [? ?]; discriminate|].
      intros H. inversion H. lia.
Qed.

(** The selection [data[np.where(timestamps == time)]] (lines 312-314):
    [np.where] gives its indices in increasing order; the selection succeeds
    exactly when every matching timestamp has a frame, and then it has one
    frame for each matching timestamp. *)
Theorem landscape_selection {A} (n : nat) (rest : list nat) (d : list A)
    (timestamps : list float) (time : float) :
  let data := mk_ndarray (n :: rest) d in
  StronglySorted lt (np_where_eq timestamps time 0) /\
  (is_Some (getitem_where data (np_where_eq timestamps time 0)) <->
   forall i y, timestamps !! i = Some y -> PrimFloat.eqb y time = true -> i < n) /\
  forall sel, getitem_where data (np_where_eq timestamps time 0) = Some sel ->
    shape sel = length (List.filter (fun y => PrimFloat.eqb y time) timestamps) :: rest.
Proof.
  intros data. split; [apply np_where_eq_sorted|]. split.
  - unfold getitem_where, data. cbn [shape].
    assert (H := take_rows_is_Some n rest d (np_where_eq timestamps time 0)).
    destruct (take_rows (mk_ndarray (n :: rest) d) (np_where_eq timestamps time 0)) as [rs|].
    + split; [|eauto]. intros _ i y Hy E.
      destruct H as [H _]. specialize (H (ltac:(eauto))).
      rewrite Forall_forall in H. apply H, np_where_eq_elem.
      split; [lia|]. exists y. rewrite Nat.sub_0_r. auto.
    + split; [intros [? ?]; discriminate|]. intros Hall.
      destruct H as [_ H]. destruct H as [? H]; [|discriminate H].
      apply Forall_forall. intros i Hi.
      apply np_where_eq_elem in Hi as [_ (y & Hy & E)].
      rewrite Nat.sub_0_r in Hy. eauto.
  - intros sel. unfold getitem_where, data. cbn [shape].
    destruct (take_rows _ _); [|discriminate].
    intros [= <-]. cbn [shape]. rewrite np_where_eq_length. reflexivity.
Qed.

Lemma squeeze_single_row {A} (a : ndarray A) (i : nat) :
  squeeze <$> getitem_where a [i] = squeeze <$> getitem a i.
Proof.
  unfold getitem_where. cbn [take_rows]. unfold getitem.
  destruct (shape a) as [|n rest]; [reflexivity|].
  destruct (Nat.ltb i n); [|reflexivity].
  cbn. unfold squeeze. cbn. rewrite app_nil_r. reflexivity.
Qed.

Lemma squeeze_no_unit_axis {A} (a : ndarray A) :
  Forall (fun n => n <> 1) (shape a) -> squeeze a = a.
Proof.
  destruct a as [shp d]. unfold squeeze. cbn. intros H. f_equal.
  induction H as [|n shp Hn H IH]; [reflexivity|].
  cbn. destruct (Nat.eqb_spec n 1); [contradiction|]. cbn. f_equal. exact IH.
Qed.

(** Where the onset matches exactly one timestamp, at position [i], the
    array that lines 311-315 make is the frame [data[i]], provided the frame
    has no axis of length one (which [np.squeeze] would drop as well). *)
Theorem landscape_image_is_frame {A} (data frame : ndarray A) (timestamps : list float)
    (time : float) (i : nat) :
  np_where_eq timestamps time 0 = [i] ->
  getitem data i = Some frame ->
  Forall (fun n => n <> 1) (shape frame) ->
  squeeze <$> getitem_where data (np_where_eq timestamps time 0) = Some frame.
Proof.
  intros -> Hframe Hshape.
  rewrite squeeze_single_row, Hframe. cbn. f_equal. apply squeeze_no_unit_axis, Hshape.
Qed.

Lemma landscape_image_is_frame_witness :
  squeeze <$> getitem_where (mk_ndarray [3; 2; 2] [1; 2; 3; 4; 5; 6; 7; 8; 9; 10; 11; 12]%Z)
                            (np_where_eq [0.5; 1.5; 2.5]%float 1.5%float 0)
  = Some (mk_ndarray [2; 2] [5; 6; 7; 8]%Z).
Proof.
  apply (landscape_image_is_frame _ _ _ _ 1).
  - reflexivity.
  - reflexivity.
  - cbn. repeat constructor; lia.
Defined.

(** ** The assertion *)

Lemma column_eq_all (timestamps column : list float) :
  np_all <$> column_eq timestamps column = Some true <->
  Forall2 (fun x y => PrimFloat.eqb x y = true) timestamps column.
Proof.
  unfold column_eq, np_all. split.
  - destruct (Nat.eqb_spec (length timestamps) (length column)) as [Hlen|]; [|discriminate].
    cbn. intros [= H]. revert column Hlen H.
    induction timestamps as [|x ts IH]; intros [|y col] Hlen H; try discriminate; [constructor|].
    cbn in H. apply andb_true_iff in H as [H1 H2].
    constructor; [exact H1 | apply IH; [cbn in Hlen; lia | exact H2]].
  - intros H. rewrite (Forall2_length _ _ _ H), Nat.eqb_refl. cbn. f_equal.
    induction H as [|x y ts col Hxy H IH]; [reflexivity|].
    cbn. rewrite Hxy. exact IH.
Qed.

(** The condition of the [assert] on line 302 holds exactly when the
    stimulus timestamps and the column of the trials table have the same
    length and are equal, as floats, element by element. *)
Theorem assert_passes_iff (timestamps column : list float) :
  np_all <$> column_eq timestamps column = Some true <->
  Forall2 (fun x y => PrimFloat.eqb x y = true) timestamps column.
Proof. apply column_eq_all. Qed.

(** ** Not-a-number *)

Lemma SFcompare_refl s : s <> S754_nan -> SFcompare s s = Some Eq.
Proof.
  destruct s as [[]| [] | | [] m e]; cbn; try reflexivity; try congruence; intros _.
  - rewrite Z.compare_refl, Pos.compare_refl. reflexivity.
  - rewrite Z.compare_refl, Pos.compare_refl. reflexivity.
Qed.

Lemma is_nan_Prim2SF x : PrimFloat.is_nan x = true -> Prim2SF x = S754_nan.
Proof.
  unfold PrimFloat.is_nan. rewrite FloatAxioms.eqb_spec. unfold SFeqb. intros H.
  destruct (Prim2SF x) as [s| s | |s m e] eqn:E; [| |reflexivity|];
    rewrite SFcompare_refl in H; discriminate.
Qed.

Lemma nan_eqb_l x y : PrimFloat.is_nan x = true -> PrimFloat.eqb x y = false.
Proof. intros H. rewrite FloatAxioms.eqb_spec, (is_nan_Prim2SF x H). reflexivity. Qed.

Lemma sub_nan s time : PrimFloat.is_nan time = true -> Prim2SF (PrimFloat.sub s time) = S754_nan.
Proof.
  intros H. rewrite FloatAxioms.sub_spec, (is_nan_Prim2SF time H).
  destruct (Prim2SF s) as [[]| [] | | [] m e]; reflexivity.
Qed.

(** An onset that is not a number leaves its row of the raster empty,
    whatever the spike times: no comparison with NaN holds. *)
Theorem nan_onset_empty_row (unit_spike_times : list float) (time : float) :
  PrimFloat.is_nan time = true -> aligned_spikes unit_spike_times time = [].
Proof.
  intros H. unfold aligned_spikes. rewrite mask_select_filter.
  induction unit_spike_times as [|s u IH]; [reflexivity|].
  cbn [map List.filter]. rewrite IH.
  replace (PrimFloat.ltb (PrimFloat.sub s time) after) with false; [rewrite andb_false_r; reflexivity|].
  rewrite FloatAxioms.ltb_spec, (sub_nan s time H). reflexivity.
Qed.

(** A stimulus timestamp that is not a number makes the condition of the
    [assert] false (if the comparison does not fail for the lengths), whatever
    the trials table holds: NaN is not equal to itself. *)
Theorem nan_timestamp_fails_assert (timestamps column : list float) (x : float) :
  In x timestamps -> PrimFloat.is_nan x = true ->
  np_all <$> column_eq timestamps column = Some false \/
  column_eq timestamps column = None.
Proof.
  intros Hin Hnan.
  destruct (column_eq timestamps column) as [mask|] eqn:Hcol; [left | right; reflexivity].
  cbn. f_equal. destruct (np_all mask) eqn:Hall; [exfalso | reflexivity].
  assert (Hpass : np_all <$> column_eq timestamps column = Some true).
  { rewrite Hcol. cbn. rewrite Hall. reflexivity. }
  apply column_eq_all in Hpass. apply list_elem_of_In in Hin.
  clear Hcol Hall. induction Hpass as [|x' y ts col Hxy H IH]; [inversion Hin|].
  apply elem_of_cons in Hin as [<-|Hin]; [|apply IH, Hin].
  rewrite (nan_eqb_l x y Hnan) in Hxy. discriminate.
Qed.

(** ** Completed runs, statement by statement *)

(** A step that changes at most the failures pending. *)
Definition quiet (w w' : World) : Prop :=
  archive w' = archive w /\ remote w' = remote w /\
  handles w' = handles w /\ figures w' = figures w.

Lemma quiet_refl w : quiet w w.
Proof. repeat split; reflexivity. Qed.

Lemma quiet_trans w1 w2 w3 : quiet w1 w2 -> quiet w2 w3 -> quiet w1 w3.
Proof. unfold quiet. intros (? & ? & ? & ?) (? & ? & ? & ?). repeat split; congruence. Qed.

Lemma quiet_lib_call : preserves quiet lib_call.
Proof.
  intros env w. unfold lib_call.
  destruct (pending w) as [|[[cls msg]|] p]; repeat split; reflexivity.
Qed.

Ltac quiet_script :=
  repeat first
    [ pr_step quiet_refl quiet_trans
    | apply quiet_lib_call ].

Lemma lib_call_Ok env w u w' : lib_call env w = Ok u w' -> quiet w w'.
Proof. apply (preserves_Ok quiet), quiet_lib_call. Qed.

Lemma NWBHDF5IO_Ok path mode driver env w io w' :
  NWBHDF5IO path mode driver env w = Ok io w' ->
  io = length (handles w) /\ handles w' = handles w ++ [(path, true)] /\
  archive w' = archive w /\ remote w' = remote w /\ figures w' = figures w.
Proof.
  unfold NWBHDF5IO, bind, lib_call, get, put, ret.
  destruct (pending w) as [|[[cls msg]|] p]; simpl; intros [= <- <-]; repeat split; reflexivity.
Qed.

Lemma lift_option_Ok {A} cls msg (o : option A) env (w : World) a w' :
  lift_option cls msg o env w = Ok a w' -> o = Some a /\ w' = w.
Proof. destruct o; cbn; [intros [= <- <-]; auto | discriminate]. Qed.

Lemma dataset_access_Ok {A} f cls msg (v : option A) env w a w' :
  dataset_access f cls msg v env w = Ok a w' -> v = Some a /\ quiet w w'.
Proof.
  intros H. unfold dataset_access in H.
  apply bind_Ok in H as (? & w1 & H1 & H).
  apply lib_call_Ok in H1.
  apply bind_Ok in H as (? & ? & [= <- <-] & H).
  destruct (handles w1 !! nf_io f) as [[? []]|]; try discriminate H.
  apply lift_option_Ok in H as [-> ->]. auto.
Qed.

Lemma io_read_Ok io env w f w' :
  io_read io env w = Ok f w' ->
  quiet w w' /\ exists path, handles w !! io = Some (path, true) /\
                             remote w !! path = Some (nf_content f).
Proof.
  intros H. unfold io_read in H.
  apply bind_Ok in H as (? & w1 & H1 & H).
  apply lib_call_Ok in H1.
  apply bind_Ok in H as (? & ? & [= <- <-] & H).
  destruct (handles w1 !! io) as [[path []]|] eqn:Hio; try discriminate H.
  apply bind_Ok in H as (c & ? & Hc & [= <- <-]).
  apply lift_option_Ok in Hc as [Hc ->].
  split; [exact H1|]. exists path. cbn. destruct H1 as (_ & <- & <- & _). auto.
Qed.

Lemma plot_Ok c env w u w' :
  plot c env w = Ok u w' ->
  archive w' = archive w /\ remote w' = remote w /\ handles w' = handles w /\
  figures w' = figures w ++ [c].
Proof.
  intros H. unfold plot in H.
  apply bind_Ok in H as (? & w1 & H1 & H).
  apply lib_call_Ok in H1 as (H1 & H2 & H3 & H4).
  cbv [modify] in H. injection H as _ <-.
  cbn. rewrite H4. auto.
Qed.

(** The lookup in the archive (lines 101-105). *)
Lemma asset_lookup_Ok env w s3_path w' :
  with_as DandiAPIClient client_exit (fun client =>
    asset <- (d <- get_dandiset client "000004" "draft" ;;
              get_asset_by_path d "sub-P11HMH/sub-P11HMH_ses-20061101_ecephys+image.nwb") ;;
    get_content_url asset 1 true) env w = Ok s3_path w' ->
  tutorial_asset (archive w) = Some s3_path /\ quiet w w'.
Proof.
  intros H. unfold with_as in H.
  apply bind_Ok in H as (client & w1 & H1 & H).
  apply lib_call_Ok in H1.
  match type of H with
  | match ?r with _ => _ end = _ => destruct r as [asset0 w2|e w2] eqn:Hb
  end.
  2: { destruct (client_exit client env w2); discriminate H. }
  destruct (client_exit client env w2) as [u w3|e w3] eqn:Hx; [|discriminate H].
  injection H as <- <-.
  apply lib_call_Ok in Hx.
  apply bind_Ok in Hb as (asset & w4 & Ha & Hb).
  apply bind_Ok in Ha as (d & w5 & Hd & Ha).
  unfold get_dandiset in Hd.
  apply bind_Ok in Hd as (? & w6 & Hl & Hd). apply lib_call_Ok in Hl.
  apply bind_Ok in Hd as (? & ? & [= <- <-] & Hd).
  destruct (existsb _ (archive w6)); [|discriminate Hd].
  injection Hd as <- <-.
  unfold get_asset_by_path in Ha.
  apply bind_Ok in Ha as (? & w7 & Hl' & Ha). apply lib_call_Ok in Hl'.
  apply bind_Ok in Ha as (? & ? & [= <- <-] & Ha).
  apply lift_option_Ok in Ha as [Ha ->].
  unfold get_content_url in Hb.
  apply bind_Ok in Hb as (? & w8 & Hl'' & [= <- <-]). apply lib_call_Ok in Hl''.
  assert (Hq : quiet w w7).
  { eapply quiet_trans; [exact H1|]. eapply quiet_trans; [exact Hl|exact Hl']. }
  split.
  - unfold tutorial_asset. destruct Hq as (Hq & _). rewrite <- Hq.
    cbn [fst snd] in Ha. rewrite Ha. reflexivity.
  - eapply quiet_trans; [exact Hq|]. eapply quiet_trans; [exact Hl''|exact Hx].
Qed.

(** One step of the inversion of a completed run. *)
Ltac step H :=
  let a := fresh "a" in
  let w := fresh "w" in
  let Hs := fresh "Hs" in
  apply bind_Ok in H as (a & w & Hs & H);
  first
    [ apply dataset_access_Ok in Hs as [Hs (? & ? & ? & ?)]
    | apply plot_Ok in Hs as (? & ? & ? & ?)
    | apply lift_option_Ok in Hs as [Hs ->]
    | apply lib_call_Ok in Hs as (? & ? & ? & ?) ].

Ltac chain_figures :=
  repeat match goal with
         | E : figures ?x = _ |- context [figures ?x] => rewrite E; clear E
         end;
  repeat rewrite <- app_assoc; reflexivity.

(** A completed pass of the loop over the units. *)
Lemma raster_Ok (f : nwbfile_t) (stim_on_times : list float) (unit : nat) env w u w' :
  (unit_spike_times <- dataset_access f "IndexError" "index out of range"
                          (c_units_spike_times (nf_content f) !! unit) ;;
   let trial_spikes := trial_spikes_loop unit_spike_times stim_on_times in
   plot (Subplots 2 1 "all") ;;
   plot (Xlabel "time (s)") ;;
   plot (Eventplot 0 trial_spikes) ;;
   plot (SetYlabel 0 "trial") ;;
   plot (SetTitle 0 ("unit " +:+ pretty unit)) ;;
   plot (Axvline 0 0 grey) ;;
   stacked <- (lib_call ;; lift_option "ValueError" "need at least one array to concatenate"
                             (np_hstack trial_spikes)) ;;
   plot (Hist 1 stacked 30) ;;
   plot (Axvline 1 0 grey)) env w = Ok u w' ->
  exists unit_spike_times,
    c_units_spike_times (nf_content f) !! unit = Some unit_spike_times /\
    stim_on_times <> [] /\
    figures w' = figures w ++ raster_plots unit (trial_spikes_loop unit_spike_times stim_on_times).
Proof.
  intros H. cbv zeta in H.
  apply bind_Ok in H as (spikes & ? & Hu & H).
  apply dataset_access_Ok in Hu as [Hu (? & ? & ? & ?)].
  do 6 step H.
  apply bind_Ok in H as (stacked & w7 & Hst & H).
  apply bind_Ok in Hst as (? & w7' & Hl & Hst).
  apply lib_call_Ok in Hl as (? & ? & ? & ?).
  apply lift_option_Ok in Hst as [Hst ->].
  step H. apply plot_Ok in H as (? & ? & ? & ?).
  exists spikes. split; [assumption|]. split.
  { intros ->. discriminate Hst. }
  assert (stacked = concat (trial_spikes_loop spikes stim_on_times)) as ->.
  { unfold np_hstack in Hst. destruct (trial_spikes_loop spikes stim_on_times); [discriminate|].
    injection Hst as <-. reflexivity. }
  unfold raster_plots. chain_figures.
Qed.

(** A completed run of the loop over the landscape onsets. *)
Lemma landscapes_Ok (f : nwbfile_t) (os : optical_series) (times : list float) :
  forall env w u w',
  for_each times (fun time =>
    img <- (ts <- dataset_access f "KeyError" "timestamps" (Some (os_timestamps os)) ;;
            sel <- dataset_access f "IndexError" "index out of range"
                     (getitem_where (os_data os) (np_where_eq ts time 0)) ;;
            ret (squeeze sel)) ;;
    img <- lift_option "IndexError" "too many indices for array" (rev_last_axis img) ;;
    plot Figure ;;
    plot (Imshow img "auto")) env w = Ok u w' ->
  exists imgs,
    Forall2 (fun time img => landscape_image (os_data os) (os_timestamps os) time = Some img)
            times imgs /\
    figures w' = figures w ++ flat_map (fun img => [Figure; Imshow img "auto"]) imgs.
Proof.
  induction times as [|time times IH]; intros env w u w' H.
  - injection H as _ <-. exists []. split; [constructor|]. rewrite app_nil_r. auto.
  - cbn [for_each] in H.
    apply bind_Ok in H as (? & w1 & Hb & H).
    apply bind_Ok in Hb as (img0 & w2 & Hi & Hb).
    apply bind_Ok in Hi as (ts & w3 & Hts & Hi).
    apply dataset_access_Ok in Hts as [[= <-] (? & ? & ? & ?)].
    apply bind_Ok in Hi as (sel & w4 & Hsel & [= <- <-]).
    apply dataset_access_Ok in Hsel as [Hsel (? & ? & ? & ?)].
    apply bind_Ok in Hb as (img & ? & Himg & Hb).
    apply lift_option_Ok in Himg as [Himg ->].
    step Hb. apply plot_Ok in Hb as (? & ? & ? & ?).
    apply IH in H as (imgs & Himgs & Hf).
    exists (img :: imgs). split.
    { constructor; [|exact Himgs]. unfold landscape_image. rewrite Hsel. exact Himg. }
    rewrite Hf. cbn [flat_map]. chain_figures.
Qed.

(** Every completed run of the script, read back statement by statement. *)
Lemma read_basics_Ok env w w' :
  read_basics env w = Ok tt w' ->
  exists url c os image u0 u1 u2 imgs,
    tutorial_asset (archive w) = Some url /\
    remote w !! url = Some c /\
    dict_get "StimulusPresentation" (c_stimulus c) = Some os /\
    getitem (os_data os) 31 ≫= rev_last_axis = Some image /\
    c_units_spike_times c !! 0 = Some u0 /\
    c_units_spike_times c !! 1 = Some u1 /\
    c_units_spike_times c !! 2 = Some u2 /\
    os_timestamps os <> [] /\
    (python_optimize env = false ->
     Forall2 (fun x y => PrimFloat.eqb x y = true)
             (os_timestamps os) (map stim_on_time (c_trials c))) /\
    Forall2 (fun time img => landscape_image (os_data os) (os_timestamps os) time = Some img)
            (landscape_onsets (c_trials c)) imgs /\
    figures w' = figures w ++
      Imshow image "auto"
      :: raster_plots 0 (trial_spikes_loop u0 (os_timestamps os))
      ++ raster_plots 1 (trial_spikes_loop u1 (os_timestamps os))
      ++ raster_plots 2 (trial_spikes_loop u2 (os_timestamps os))
      ++ flat_map (fun img => [Figure; Imshow img "auto"]) imgs.
Proof.
  intros H. unfold read_basics in H. cbv zeta in H.
  unfold py_import in H. do 4 step H.
  apply bind_Ok in H as (s3_path & w5 & Hurl & H).
  apply asset_lookup_Ok in Hurl as [Hurl (? & ? & ? & ?)].
  apply bind_Ok in H as (io & w6 & Hio & H).
  apply NWBHDF5IO_Ok in Hio as (-> & Hh & ? & ? & ?).
  apply bind_Ok in H as (f & w7 & Hf & H).
  apply io_read_Ok in Hf as [(? & ? & ? & ?) (path & Hpath & Hc)].
  assert (path = s3_path) as ->.
  { rewrite Hh, list_lookup_middle in Hpath by reflexivity. congruence. }
  unfold stimulus_getitem in H.
  step H. apply bind_Ok in H as (os & ? & Hos & H).
  apply lift_option_Ok in Hos as [Hos ->].
  step H.
  apply bind_Ok in H as (frame & ? & Hframe & H).
  apply dataset_access_Ok in Hframe as [Hframe (? & ? & ? & ?)].
  apply bind_Ok in H as (image & ? & Himage & H).
  apply lift_option_Ok in Himage as [Himage ->].
  step H. step H. step H.
  apply bind_Ok in H as (stim & w14 & Hstim & H).
  apply dataset_access_Ok in Hstim as [[= <-] (? & ? & ? & ?)].
  cbn [seq for_each] in H.
  apply bind_Ok in H as (? & w15 & Hloop & H).
  apply bind_Ok in Hloop as (? & w16 & Hb0 & Hloop).
  apply raster_Ok in Hb0 as (u0 & Hu0 & Hne & ?).
  apply bind_Ok in Hloop as (? & w17 & Hb1 & Hloop).
  apply raster_Ok in Hb1 as (u1 & Hu1 & _ & ?).
  apply bind_Ok in Hloop as (? & w18 & Hb2 & [= _ <-]).
  apply raster_Ok in Hb2 as (u2 & Hu2 & _ & ?).
  apply bind_Ok in H as (trials_df & w19 & Htr & H).
  apply bind_Ok in Htr as (? & ? & Hl & [= <- <-]).
  apply lib_call_Ok in Hl as (? & ? & ? & ?).
  apply bind_Ok in H as (same & w20 & Hsame & H).
  apply bind_Ok in Hsame as (ts & w21 & Hts & Hsame).
  apply dataset_access_Ok in Hts as [[= <-] (? & ? & ? & ?)].
  apply bind_Ok in Hsame as (eq & ? & Heq & [= <- <-]).
  apply lift_option_Ok in Heq as [Heq ->].
  apply bind_Ok in H as (? & ? & Hassert & H).
  unfold py_assert in Hassert.
  destruct (python_optimize env || np_all eq) eqn:Hall; [|discriminate Hassert].
  injection Hassert as _ <-.
  apply landscapes_Ok in H as (imgs & Himgs & ?).
  exists s3_path, (nf_content f), os, image, u0, u1, u2, imgs.
  split; [congruence|]. split; [congruence|]. split; [exact Hos|].
  split. { rewrite Hframe. exact Himage. }
  do 3 (split; [assumption|]). split; [exact Hne|].
  split.
  { intros Hopt. rewrite Hopt in Hall. cbn in Hall.
    apply column_eq_all. rewrite Heq. cbn. rewrite Hall. reflexivity. }
  split; [exact Himgs|].
  chain_figures.
Qed.

(** ** The window around each onset, in the script *)

(** C8. For each of the units 0, 1, 2 and each stimulus onset: the array
    that the pass for that onset appends to [trial_spikes] (the [i]-th array,
    for the [i]-th onset [time]) is the filtered [aligned_spikes] of that unit
    and that onset; every element [t] of it lies strictly inside the window,
    [-1.0 < t < 3.0], and is a spike time of that unit minus that onset time.
    And these are the arrays of the script: in every completed run, for each
    of the units 0, 1, 2, the raster drawn is [trial_spikes] as the loop makes
    it from the spike times of that unit and the stimulus timestamps of the
    file. *)
Theorem spike_window :
  (forall (units : list (list float)) (stim_on_times : list float) (unit : nat)
          (unit_spike_times : list float) (i : nat) (arr : list float) (t : float),
     In unit (seq 0 3) ->
     units !! unit = Some unit_spike_times ->
     trial_spikes_loop unit_spike_times stim_on_times !! i = Some arr ->
     In t arr ->
     exists time,
       stim_on_times !! i = Some time /\
       arr = aligned_spikes unit_spike_times time /\
       PrimFloat.ltb (-1.0)%float t = true /\ PrimFloat.ltb t 3.0%float = true /\
       exists s, In s unit_spike_times /\ t = PrimFloat.sub s time) /\
  (forall env w w',
     read_basics env w = Ok tt w' ->
     exists url c os,
       remote w !! url = Some c /\
       dict_get "StimulusPresentation" (c_stimulus c) = Some os /\
       forall unit, In unit (seq 0 3) ->
         exists unit_spike_times,
           c_units_spike_times c !! unit = Some unit_spike_times /\
           In (Eventplot 0 (trial_spikes_loop unit_spike_times (os_timestamps os)))
              (figures w')).
Proof.
  split.
  - intros units stim_on_times unit unit_spike_times i arr t _ _ Harr Ht.
    rewrite trial_spikes_loop_map in Harr.
    change (map (aligned_spikes unit_spike_times) stim_on_times)
      with (aligned_spikes unit_spike_times <$> stim_on_times) in Harr.
    rewrite list_lookup_fmap in Harr.
    destruct (stim_on_times !! i) as [time|]; [|discriminate Harr].
    injection Harr as <-.
    apply aligned_spikes_In in Ht as (H1 & H2 & s & Hs & ->).
    exists time. repeat split; [exact H1 | exact H2 |].
    exists s. split; [exact Hs | reflexivity].
  - intros env w w' H.
    apply read_basics_Ok in H
      as (url & c & os & image & u0 & u1 & u2 & imgs & _ & Hc & Hos & _
          & Hu0 & Hu1 & Hu2 & _ & _ & _ & Hfig).
    exists url, c, os. split; [exact Hc|]. split; [exact Hos|].
    intros unit Hunit. rewrite Hfig.
    cbn [seq In] in Hunit.
    destruct Hunit as [<-|[<-|[<-|[]]]];
      [exists u0 | exists u1 | exists u2]; (split; [assumption|]);
      apply in_or_app; right; right.
    + apply in_or_app. left. unfold raster_plots. cbn. auto.
    + apply in_or_app. right. apply in_or_app. left. unfold raster_plots. cbn. auto.
    + apply in_or_app. right. apply in_or_app. right. apply in_or_app. left.
      unfold raster_plots. cbn. auto.
Qed.

Lemma spike_window_witness :
  exists time,
    [5.5; 7.0]%float !! 1 = Some time /\
    [-0.5; 1.5; 2.0]%float = aligned_spikes [4.0; 5.0; 6.5; 8.5; 9.0]%float time /\
    PrimFloat.ltb (-1.0)%float 1.5%float = true /\ PrimFloat.ltb 1.5%float 3.0%float = true /\
    exists s, In s [4.0; 5.0; 6.5; 8.5; 9.0]%float /\ 1.5%float = PrimFloat.sub s time.
Proof.
  apply (proj1 spike_window
           [[4.0; 5.0; 6.5; 8.5; 9.0]; []; []]%float [5.5; 7.0]%float 0
           [4.0; 5.0; 6.5; 8.5; 9.0]%float 1 [-0.5; 1.5; 2.0]%float 1.5%float).
  - simpl. left. reflexivity.
  - reflexivity.
  - reflexivity.
  - right. left. reflexivity.
Defined.

(** ** Runs that complete *)














(** The lookup in the archive finds the asset. *)
Lemma asset_lookup_run env arch rem hs figs url :
  tutorial_asset arch = Some url ->
  with_as DandiAPIClient client_exit (fun client =>
    asset <- (d <- get_dandiset client "000004" "draft" ;;
              get_asset_by_path d "sub-P11HMH/sub-P11HMH_ses-20061101_ecephys+image.nwb") ;;
    get_content_url asset 1 true) env (mk_world arch rem hs figs [])
  = Ok url (mk_world arch rem hs figs []).
Proof.
  unfold tutorial_asset. intros H.
  destruct (List.find _ arch) as [asset|] eqn:Hfind; [|discriminate H].
  injection H as <-.
  assert (Hex : existsb (fun a => match a with (d, v, _, _) =>
                           String.eqb d "000004" && String.eqb v "draft" end) arch = true).
  { apply find_some in Hfind as [Hin Hp]. apply existsb_exists. exists asset.
    split; [exact Hin|]. destruct asset as [[[d v] p] u].
    apply andb_true_iff in Hp as [Hp _]. exact Hp. }
  unfold with_as, DandiAPIClient, client_exit, get_dandiset, get_asset_by_path,
    get_content_url, bind, lib_call, get, ret.
  cbn [pending archive]. rewrite Hex. cbn [fst snd pending archive].
  rewrite Hfind. reflexivity.
Qed.

(** Where the archive has no such asset, the lookup raises the archive's
    [NotFoundError], after the client is released. *)
Lemma asset_lookup_fails env arch rem hs figs :
  tutorial_asset arch = None ->
  exists msg,
    with_as DandiAPIClient client_exit (fun client =>
      asset <- (d <- get_dandiset client "000004" "draft" ;;
                get_asset_by_path d "sub-P11HMH/sub-P11HMH_ses-20061101_ecephys+image.nwb") ;;
      get_content_url asset 1 true) env (mk_world arch rem hs figs [])
    = Raise (LibraryError "NotFoundError" msg) (mk_world arch rem hs figs []).
Proof.
  unfold tutorial_asset. intros H.
  destruct (List.find _ arch) as [asset|] eqn:Hfind; [discriminate H|].
  unfold with_as, DandiAPIClient, client_exit, get_dandiset, get_asset_by_path,
    get_content_url, bind, lib_call, get, ret.
  cbn [pending archive].
  destruct (existsb _ arch); cbn [fst snd pending archive].
  - rewrite Hfind. eexists. reflexivity.
  - eexists. reflexivity.
Qed.

(** A run of [bind] whose first half completes ends as the second half
    does. *)
Lemma bind_step {A B} (P : result World B -> Prop) (m : M World A) (k : A -> M World B)
    env w a w1 :
  m env w = Ok a w1 -> P (k a env w1) -> P (bind m k env w).
Proof. intros Hm Hk. unfold bind. rewrite Hm. exact Hk. Qed.



(** The run ends with the exception [e], and nothing was plotted. *)
Definition fails_before_plotting (e : exn) (figs : list plot_cmd) (r : result World unit)
    : Prop :=
  exists w', r = Raise e w' /\ figures w' = figs.

Lemma io_read_run env arch rem hs figs url c :
  rem !! url = Some c ->
  io_read (length hs) env (mk_world arch rem (hs ++ [(url, true)]) figs [])
  = Ok (mk_nwbfile (length hs) c) (mk_world arch rem (hs ++ [(url, true)]) figs []).
Proof.
  intros Hc. unfold io_read, bind, lib_call, get. cbn [pending handles remote].
  rewrite list_lookup_middle by reflexivity. rewrite Hc. reflexivity.
Qed.

(** Lines 84-123: the imports, the lookup in the archive, and the file
    opened and read. *)
Ltac open_file Hasset Hc :=
  unfold read_basics; cbv zeta;
  do 4 (eapply bind_step; [reflexivity|]);
  eapply bind_step; [apply asset_lookup_run, Hasset|];
  eapply bind_step; [reflexivity|];
  eapply bind_step; [apply io_read_run, Hc|].














Lemma dataset_access_run {A} env arch rem hs figs url c cls msg (o : option A) :
  dataset_access (mk_nwbfile (length hs) c) cls msg o env
    (mk_world arch rem (hs ++ [(url, true)]) figs [])
  = lift_option cls msg o env (mk_world arch rem (hs ++ [(url, true)]) figs []).
Proof.
  unfold dataset_access, bind, lib_call, get. cbn [pending handles nf_io].
  rewrite list_lookup_middle by reflexivity. reflexivity.
Qed.

(** A stimulus of fewer than 32 frames stops the script at [data[31]]
    (line 196) with [IndexError], before anything is drawn. *)
Theorem read_basics_short_stimulus env w url c os :
  pending w = [] ->
  tutorial_asset (archive w) = Some url ->
  remote w !! url = Some c ->
  dict_get "StimulusPresentation" (c_stimulus c) = Some os ->
  getitem (os_data os) 31 = None ->
  exists w', read_basics env w = Raise (LibraryError "IndexError" "index out of range") w' /\
             figures w' = figures w.
Proof.
  destruct w as [arch rem hs figs p]. cbn [pending archive remote figures].
  intros -> Hasset Hc Hos Hframe.
  change (fails_before_plotting (LibraryError "IndexError" "index out of range") figs
            (read_basics env (mk_world arch rem hs figs []))).
  open_file Hasset Hc.
  unfold stimulus_getitem. cbn [nf_content]. rewrite Hos. cbn [lift_option].
  do 2 (eapply bind_step; [reflexivity|]).
  eapply bind_step; [rewrite dataset_access_run; reflexivity|].
  unfold bind at 1. rewrite dataset_access_run, Hframe.
  eexists. split; reflexivity.
Qed.

(** Where the archive does not have the asset, the script stops at the
    lookup (lines 101-105) with the archive's [NotFoundError]: no file is
    opened and nothing is drawn, the world is as it was. *)
Theorem read_basics_no_asset env w :
  pending w = [] ->
  tutorial_asset (archive w) = None ->
  exists msg, read_basics env w = Raise (LibraryError "NotFoundError" msg) w.
Proof.
  destruct w as [arch rem hs figs p]. cbn [pending archive].
  intros -> Hasset.
  destruct (asset_lookup_fails env arch rem hs figs Hasset) as [msg E].
  exists msg. unfold read_basics. cbv zeta.
  do 4 (eapply bind_run; [reflexivity|]).
  unfold bind at 1. rewrite E. reflexivity.
Qed.

(** ** The script and the file it streams *)




(** What a completed run draws, in order: frame 31 with its last axis
    reversed; for each of the units 0, 1, 2 the raster of its spike times
    around every stimulus onset and the histogram of them; then, for each of
    the first three landscape onsets and no more, a figure with the image of
    that onset. *)
Theorem read_basics_plots env w w' :
  read_basics env w = Ok tt w' ->
  exists url c os frame image u0 u1 u2 imgs,
    tutorial_asset (archive w) = Some url /\
    remote w !! url = Some c /\
    dict_get "StimulusPresentation" (c_stimulus c) = Some os /\
    getitem (os_data os) 31 = Some frame /\
    rev_last_axis frame = Some image /\
    c_units_spike_times c !! 0 = Some u0 /\
    c_units_spike_times c !! 1 = Some u1 /\
    c_units_spike_times c !! 2 = Some u2 /\
    Forall2 (fun time img => landscape_image (os_data os) (os_timestamps os) time = Some img)
            (landscape_onsets (c_trials c)) imgs /\
    length imgs
      = min 3 (length (List.filter (fun r => String.eqb (category_name r) "landscapes")
                                   (c_trials c))) /\
    figures w' = figures w ++
      Imshow image "auto"
      :: raster_plots 0 (trial_spikes_loop u0 (os_timestamps os))
      ++ raster_plots 1 (trial_spikes_loop u1 (os_timestamps os))
      ++ raster_plots 2 (trial_spikes_loop u2 (os_timestamps os))
      ++ flat_map (fun img => [Figure; Imshow img "auto"]) imgs.
Proof.
  intros H.
  apply read_basics_Ok in H
    as (url & c & os & image & u0 & u1 & u2 & imgs & Hasset & Hc & Hos & Himage
        & Hu0 & Hu1 & Hu2 & Hne & Heq & Himgs & Hfig).
  destruct (getitem (os_data os) 31) as [frame|] eqn:Hframe; [|discriminate Himage].
  exists url, c, os, frame, image, u0, u1, u2, imgs.
  repeat (split; [assumption|]).
  split; [|exact Hfig].
  rewrite <- (Forall2_length _ _ _ Himgs). unfold landscape_onsets.
  rewrite length_take, length_map. reflexivity.
Qed.

Lemma read_basics_plots_witness :
  exists url c os frame image u0 u1 u2 imgs,
    tutorial_asset (archive sample_world) = Some url /\
    remote sample_world !! url = Some c /\
    dict_get "StimulusPresentation" (c_stimulus c) = Some os /\
    getitem (os_data os) 31 = Some frame /\
    rev_last_axis frame = Some image /\
    c_units_spike_times c !! 0 = Some u0 /\
    c_units_spike_times c !! 1 = Some u1 /\
    c_units_spike_times c !! 2 = Some u2 /\
    Forall2 (fun time img => landscape_image (os_data os) (os_timestamps os) time = Some img)
            (landscape_onsets (c_trials c)) imgs /\
    length imgs
      = min 3 (length (List.filter (fun r => String.eqb (category_name r) "landscapes")
                                   (c_trials c))) /\
    figures (final_world (read_basics env0 sample_world)) = figures sample_world ++
      Imshow image "auto"
      :: raster_plots 0 (trial_spikes_loop u0 (os_timestamps os))
      ++ raster_plots 1 (trial_spikes_loop u1 (os_timestamps os))
      ++ raster_plots 2 (trial_spikes_loop u2 (os_timestamps os))
      ++ flat_map (fun img => [Figure; Imshow img "auto"]) imgs.
Proof.
  apply (read_basics_plots env0 sample_world (final_world (read_basics env0 sample_world))).
  apply run_of_value. vm_compute. reflexivity.
Defined.


Lemma read_basics_short_stimulus_witness :
  exists w',
    read_basics env0
      (mk_world sample_archive
         {[ sample_url :=
              mk_content [("StimulusPresentation",
                           mk_optical_series (mk_ndarray [2; 1; 1; 3] [1; 2; 3; 4; 5; 6]%Z)
                                             [1.0%float; 2.0%float])] [] [] ]}
         [] [] [])
    = Raise (LibraryError "IndexError" "index out of range") w' /\
    figures w' = [].
Proof.
  apply (read_basics_short_stimulus env0
           (mk_world sample_archive
              {[ sample_url :=
                   mk_content [("StimulusPresentation",
                                mk_optical_series (mk_ndarray [2; 1; 1; 3] [1; 2; 3; 4; 5; 6]%Z)
                                                  [1.0%float; 2.0%float])] [] [] ]}
              [] [] [])
           sample_url
           (mk_content [("StimulusPresentation",
                         mk_optical_series (mk_ndarray [2; 1; 1; 3] [1; 2; 3; 4; 5; 6]%Z)
                                           [1.0%float; 2.0%float])] [] [])
           (mk_optical_series (mk_ndarray [2; 1; 1; 3] [1; 2; 3; 4; 5; 6]%Z)
                              [1.0%float; 2.0%float])).
  - reflexivity.
  - reflexivity.
  - vm_compute. reflexivity.
  - reflexivity.
  - reflexivity.
Defined.

Lemma read_basics_no_asset_witness :
  exists msg,
    read_basics env0 (mk_world [] ∅ [] [] [])
    = Raise (LibraryError "NotFoundError" msg) (mk_world [] ∅ [] [] []).
Proof.
  apply (read_basics_no_asset env0 (mk_world [] ∅ [] [] [])).
  - reflexivity.
  - reflexivity.
Defined.

Lemma nan_onset_empty_row_witness :
  aligned_spikes [1.0%float; 2.5%float] PrimFloat.nan = [].
Proof.
  apply (nan_onset_empty_row [1.0%float; 2.5%float] PrimFloat.nan).
  reflexivity.
Defined.

Lemma nan_timestamp_fails_assert_witness :
  np_all <$> column_eq [1.0%float; PrimFloat.nan] [1.0%float; PrimFloat.nan] = Some false \/
  column_eq [1.0%float; PrimFloat.nan] [1.0%float; PrimFloat.nan] = None.
Proof.
  apply (nan_timestamp_fails_assert [1.0%float; PrimFloat.nan] [1.0%float; PrimFloat.nan]
                                    PrimFloat.nan).
  - simpl. right. left. reflexivity.
  - reflexivity.
Defined.

End ReadBasicsRuns.

(* ===================================================================== *)
(** * The runs of linking_data.py *)
(* ===================================================================== *)

Module LinkingRuns.
Import Linking LinkingFacts.

Lemma eqb_add_l n a b : Nat.eqb (n + a) (n + b) = Nat.eqb a b.
Proof.
  destruct (Nat.eqb_spec a b) as [->|H]; [apply Nat.eqb_refl|].
  apply Nat.eqb_neq. lia.
Qed.

Ltac unfold_call :=
  progress
    unfold linking_data, create_test_data, link_datasets, link_containers,
           py_import, np_arange, ndarray_reshape, NWBFile, TimeSeries, H5DataIO,
           get_manager, add_acquisition, get_acquisition, ts_data, NWBHDF5IO, io_close,
           io_write, io_read, write_series, read_series, write_dataset, write_h5dataset,
           manager_lookup, manager_register, array_values, read_data, type_error;
  cbv zeta; cbv delta [max_link_depth].

(** Runs the script on a world [mk_world (h ++ l) fs []], one call at a time:
    a call is unfolded when it is reached. *)
Ltac run_script :=
  run_norm;
  cbn [start_time create_date data timestamps filename1 filename2 filename3 filename4
       fst snd id];
  lazymatch goal with
  | |- bind _ _ _ _ = _ => eapply bind_run; [run_script | run_script]
  | |- lift_option _ _ (resolve_dataset (S _) _ _ _ _ _) _ _ = _ =>
      rewrite resolve_dataset_S; run_script
  | |- lift_option _ _ (resolve_series (S _) _ _ _ _) _ _ = _ =>
      rewrite resolve_series_S; run_script
  | |- lib_call _ _ = _ => apply run_lib_call
  | |- alloc _ _ _ = _ => apply run_alloc
  | |- load (length _ + _) _ _ = _ => eapply run_load_new; reflexivity
  | |- store _ _ _ _ = _ => apply run_store_new
  | |- context [Np.reshape ?a [100; 10]] =>
      change (Np.reshape a [100; 10]) with (Some data_array); run_script
  | |- context [Nat.eqb (?n + ?a) (?n + ?b)] =>
      rewrite (eqb_add_l n a b); cbn [Nat.eqb]; run_script
  | |- context [String.eqb ?x ?y] =>
      let b := eval vm_compute in (String.eqb x y) in
      change (String.eqb x y) with b; cbn [negb]; run_script
  | |- context [(<[?k := ?v]> ?m) !! ?k] => rewrite (lookup_insert_eq m k v); run_script
  | |- context [(<[?k := ?v]> ?m) !! ?k'] =>
      rewrite (lookup_insert_ne m k k' v) by discriminate; run_script
  | |- _ => first [unfold_call; run_script | reflexivity]
  end.

(** From any state in which no library call fails, the script runs to its
    end, adds 36 objects to the heap and leaves the file system with its four
    files. *)
Lemma linking_data_run_from dflt env h fs :
  exists r l,
    linking_data dflt env (mk_world h fs [])
    = Ok r (mk_world (h ++ l) (expected_files fs) []) /\ length l = 36.
Proof.
  assert (H : exists r l,
    linking_data dflt env (mk_world (h ++ []) fs [])
    = Ok r (mk_world (h ++ l) (expected_files fs) []) /\ length l = 36).
  { eexists _, _. split.
    - unfold expected_files, expected_file1, expected_file2, expected_file3, expected_file4,
             tutorial_meta, linking_data, create_test_data.
      cbv zeta.
      set (start := mk_datetime 2017 4 3 11 0 0).
      set (created := mk_datetime 2017 4 15 12 0 0).
      set (flat := Np.arange 1000).
      run_script.
    - reflexivity. }
  rewrite app_nil_r in H. exact H.
Qed.

(** Reading the data of a record of one of the files the script leaves. *)
Ltac read_back :=
  match goal with
  | |- value_of (read_data ?f ?name ?env (mk_world ?h ?fs [])) = Some ?x =>
      let H := fresh in
      assert (H : exists w, read_data f name env (mk_world (h ++ []) fs []) = Ok x w)
        by (eexists; unfold expected_files, expected_file1, expected_file2,
                            expected_file3, expected_file4, stored_series, linked_series;
            run_script);
      rewrite app_nil_r in H; destruct H as [? ->]; reflexivity
  end.

Lemma read_back_all env h fs :
  let w := mk_world h (expected_files fs) [] in
  value_of (read_data "external1_example.nwb" "test_timeseries1" env w) = Some data_array /\
  value_of (read_data "external2_example.nwb" "test_timeseries2" env w) = Some data_array /\
  value_of (read_data "external_linkdataset_example.nwb" "test_timeseries4" env w)
    = Some data_array /\
  value_of (read_data "external_linkdataset_example.nwb" "test_timeseries5" env w)
    = Some data_array /\
  value_of (read_data "external_linkcontainer_example.nwb" "test_timeseries1" env w)
    = Some data_array /\
  value_of (read_data "external_linkcontainer_example.nwb" "test_timeseries2" env w)
    = Some data_array.
Proof.
  intros w. subst w.
  split; [read_back|].
  split; [read_back|]. split; [read_back|]. split; [read_back|]. split; read_back.
Qed.







(** After the script, from any such state, the data of each record of each
    of the four files reads back as the array of line 67: directly from the two
    source files, through the dataset links of the third, and through the
    container links of the fourth. *)
Theorem linked_records_read_back dflt env env' w :
  pending w = [] ->
  exists r w',
    linking_data dflt env w = Ok r w' /\
    value_of (read_data "external1_example.nwb" "test_timeseries1" env' w')
      = Some data_array /\
    value_of (read_data "external2_example.nwb" "test_timeseries2" env' w')
      = Some data_array /\
    value_of (read_data "external_linkdataset_example.nwb" "test_timeseries4" env' w')
      = Some data_array /\
    value_of (read_data "external_linkdataset_example.nwb" "test_timeseries5" env' w')
      = Some data_array /\
    value_of (read_data "external_linkcontainer_example.nwb" "test_timeseries1" env' w')
      = Some data_array /\
    value_of (read_data "external_linkcontainer_example.nwb" "test_timeseries2" env' w')
      = Some data_array.
Proof.
  destruct w as [h fs p]. cbn [pending]. intros ->.
  destruct (linking_data_run_from dflt env h fs) as (r & l & E & _).
  eexists r, _. split; [exact E|].
  apply read_back_all.
Qed.

Lemma linked_records_read_back_witness :
  exists r w',
    linking_data true env0 sample_world = Ok r w' /\
    value_of (read_data "external1_example.nwb" "test_timeseries1" env0 w')
      = Some data_array /\
    value_of (read_data "external2_example.nwb" "test_timeseries2" env0 w')
      = Some data_array /\
    value_of (read_data "external_linkdataset_example.nwb" "test_timeseries4" env0 w')
      = Some data_array /\
    value_of (read_data "external_linkdataset_example.nwb" "test_timeseries5" env0 w')
      = Some data_array /\
    value_of (read_data "external_linkcontainer_example.nwb" "test_timeseries1" env0 w')
      = Some data_array /\
    value_of (read_data "external_linkcontainer_example.nwb" "test_timeseries2" env0 w')
      = Some data_array.
Proof.
  apply (linked_records_read_back true env0 env0 sample_world).
  reflexivity.
Defined.

(** ** Runs in which library calls fail *)

(** A run stays within the four files: from a world whose handles are on
    them, it ends in such a world, with every other file as it was. *)
Definition confined (w w' : World) : Prop :=
  handles_on_tutorial_files w ->
  handles_on_tutorial_files w' /\ other_files_kept w w'.

Lemma confined_refl w : confined w w.
Proof. intros H. split; [exact H | intros f _; reflexivity]. Qed.

Lemma confined_trans w1 w2 w3 : confined w1 w2 -> confined w2 w3 -> confined w1 w3.
Proof.
  intros H12 H23 H1. destruct (H12 H1) as [H2 F12]. destruct (H23 H2) as [H3 F23].
  split; [exact H3|]. intros f Hf. rewrite (F23 f Hf). apply F12, Hf.
Qed.

Lemma confined_lib_call : preserves confined lib_call.
Proof.
  intros env w. unfold lib_call.
  destruct (pending w) as [|[[cls msg]|] p]; simpl; intros H; (split; [exact H | intros f _; reflexivity]).
Qed.

Lemma confined_load l : preserves confined (load l).
Proof. intros env w. unfold load. destruct (heap w !! l); apply confined_refl. Qed.

(** Objects that are not a handle on another file. *)
Definition on_tutorial_files (o : obj) : Prop :=
  match o with
  | ONWBHDF5IO path _ _ _ => In path tutorial_files
  | _ => True
  end.

Lemma confined_alloc o : on_tutorial_files o -> preserves confined (alloc o).
Proof.
  intros Ho env w H. split; [|intros f _; reflexivity].
  intros l path mode mgr b. cbn [alloc set_heap heap].
  intros Hl. apply lookup_app_Some in Hl as [Hl|[_ Hl]]; [eapply H, Hl|].
  apply list_lookup_singleton_Some in Hl as [_ ->]. exact Ho.
Qed.

Lemma confined_store l o : on_tutorial_files o -> preserves confined (store l o).
Proof.
  intros Ho env w H. split; [|intros f _; reflexivity].
  intros l' path mode mgr b. cbn [store set_heap heap].
  intros Hl. apply list_lookup_insert_Some in Hl as [(_ & -> & _)|[_ Hl]]; [exact Ho|].
  eapply H, Hl.
Qed.

Lemma confined_write path h :
  In path tutorial_files ->
  preserves confined (modify (fun w => set_files (<[path := h]> (files w)) w)).
Proof.
  intros Hp env w H. split; [exact H|].
  intros f Hf. cbn. apply lookup_insert_ne. intros ->. contradiction.
Qed.

(** [load l] followed by a program that depends on the object found. *)
Lemma confined_load_then {A} l (k : obj -> M World A) :
  (forall o, (on_tutorial_files o) -> preserves confined (k o)) ->
  preserves confined (bind (load l) k).
Proof.
  intros Hk env w. unfold bind, load.
  destruct (heap w !! l) as [o|] eqn:E; [|apply confined_refl].
  assert (Ho : handles_on_tutorial_files w -> on_tutorial_files o).
  { intros H. destruct o; try exact I. eapply H, E. }
  cbn beta iota.
  destruct (k o env w) as [a w'|e w'] eqn:Ek; intros H;
    specialize (Hk o (Ho H) env w); rewrite Ek in Hk; apply Hk, H.
Qed.

Ltac confined_obj :=
  first [ exact I
        | match goal with H : on_tutorial_files _ |- _ => exact H end
        | cbn; tauto ].

Ltac confined_script :=
  unfold type_error;
  repeat first
    [ pr_step confined_refl confined_trans
    | apply confined_lib_call
    | apply confined_load
    | apply confined_alloc; confined_obj
    | apply confined_store; confined_obj
    | apply confined_write; assumption ].

Lemma confined_io_close io : preserves confined (io_close io).
Proof.
  unfold io_close.
  apply pr_bind; [apply confined_trans | apply confined_lib_call | intros _].
  apply confined_load_then. intros o Ho.
  destruct o; confined_script.
Qed.

Lemma confined_io_write dflt io nwbfile link_data :
  preserves confined (io_write dflt io nwbfile link_data).
Proof.
  unfold io_write.
  apply pr_bind; [apply confined_trans | apply confined_lib_call | intros _].
  apply confined_load_then. intros o Ho.
  destruct o as [| | | | | |path mode mgr []]; try (confined_script; fail).
  cbn in Ho. unfold write_series, write_dataset, write_h5dataset, manager_lookup,
    manager_register, type_error. cbv zeta.
  confined_script.
Qed.

(** The file names bound by the first part are the four files. *)
Definition names_ok (td : TestData) : Prop :=
  In (filename1 td) tutorial_files /\ In (filename2 td) tutorial_files /\
  In (filename3 td) tutorial_files /\ In (filename4 td) tutorial_files.

Ltac unfold_calls :=
  unfold py_import, np_arange, ndarray_reshape, NWBFile, TimeSeries, H5DataIO,
         get_manager, add_acquisition, get_acquisition, ts_data, NWBHDF5IO,
         io_read, read_series, manager_register, type_error;
  cbv zeta.

Ltac confined_calls :=
  repeat first
    [ apply confined_io_write
    | apply confined_io_close
    | progress confined_script ].

Lemma confined_create_test_data dflt : preserves confined (create_test_data dflt).
Proof. unfold create_test_data. unfold_calls. confined_calls. Qed.

Lemma create_test_data_names dflt env w td w' :
  create_test_data dflt env w = Ok td w' -> names_ok td.
Proof.
  intros H. unfold create_test_data in H. cbv zeta in H.
  repeat (apply bind_Ok in H as (? & ? & _ & H)).
  injection H as <- _. unfold names_ok, tutorial_files. cbn. tauto.
Qed.

Lemma confined_link_datasets dflt td :
  names_ok td -> preserves confined (link_datasets dflt td).
Proof.
  intros (H1 & H2 & H3 & H4). unfold link_datasets. unfold_calls. confined_calls.
Qed.

Lemma confined_link_containers dflt td :
  names_ok td -> preserves confined (link_containers dflt td).
Proof.
  intros (H1 & H2 & H3 & H4). unfold link_containers. unfold_calls. confined_calls.
Qed.

Lemma confined_linking_data dflt : preserves confined (linking_data dflt).
Proof.
  intros env w. unfold linking_data. unfold bind at 1.
  pose proof (confined_create_test_data dflt env w) as H1.
  destruct (create_test_data dflt env w) as [td w1|e w1] eqn:E1; [|exact H1].
  apply create_test_data_names in E1.
  match goal with
  | |- match ?m env w1 with _ => _ end =>
      assert (H2 : preserves confined m)
  end.
  { apply pr_bind; [apply confined_trans | apply confined_link_datasets, E1 | intros dl].
    apply pr_bind; [apply confined_trans | apply confined_link_containers, E1 | intros cl].
    apply pr_ret, confined_refl. }
  specialize (H2 env w1).
  match goal with
  | |- match ?r with _ => _ end => destruct r
  end; eapply confined_trans; eassumption.
Qed.

(** Whatever library calls fail, and whatever the directory holds, a run of
    the script changes no file but its four: in every run, completed or not,
    from a world whose I/O handles (if any) are on those files, every other
    file is at the end what it was. *)
Theorem linking_data_confined dflt env w :
  handles_on_tutorial_files w ->
  handles_on_tutorial_files (final_world (linking_data dflt env w)) /\
  other_files_kept w (final_world (linking_data dflt env w)).
Proof.
  intros H. pose proof (confined_linking_data dflt env w) as Hc.
  destruct (linking_data dflt env w) as [r w'|e w']; cbn; apply Hc, H.
Qed.

Lemma linking_data_confined_witness :
  handles_on_tutorial_files
    (final_world (linking_data true env0 (fault_world 20 "OSError" "disk full"))) /\
  other_files_kept (fault_world 20 "OSError" "disk full")
    (final_world (linking_data true env0 (fault_world 20 "OSError" "disk full"))).
Proof.
  apply (linking_data_confined true env0 (fault_world 20 "OSError" "disk full")).
  intros l path mode mgr is_open H. discriminate H.
Defined.

End LinkingRuns.
